(** * AFC_functions: configuration rewriting and calibration commands

    A shallow embedding of [extras/AFC_functions.py] (class [afcFunction]):
    - [ConfigRewrite], the line scanner that rewrites one key of one section
      in the first configuration file where it finds it;
    - [cmd_CALIBRATE_AFC], the distance / Bowden calibration command;
    - [cmd_SET_BOWDEN_LENGTH], the helper that sets a hub's working Bowden
      length.

    Python [str] values are [string]s (characters are code points below 256),
    dictionaries whose iteration order matters are association lists, the
    other dictionaries are [gmap]s, and objects reached through references
    (extruders) live in a store indexed by their name. *)

From Stdlib Require Import Strings.String Strings.Ascii Lists.List.
From Stdlib Require Import Arith ZArith Lia Bool DecimalString.
From Stdlib Require HexadecimalString.
From stdpp Require Import base option gmap strings functions.
Import ListNotations.

Local Open Scope stdpp_scope.

(** ** Python string primitives *)

Module Py.

(** The line feed, [chr(10)]. *)
Definition LF : ascii := "010"%char.
Definition nl : string := String LF EmptyString.

(** [str.isspace] on one character, for code points below 256; this is
    also what [\s] matches in a [str] pattern of the [re] module. *)
Definition isspace (c : ascii) : bool :=
  let n := nat_of_ascii c in
  ((9 <=? n) && (n <=? 13)) || ((28 <=? n) && (n <=? 32))
  || (n =? 133) || (n =? 160).

(** [s.startswith(p)] *)
Definition startswith (s p : string) : bool := String.prefix p s.

(** [s.endswith(p)] *)
Definition endswith (s p : string) : bool :=
  (String.length p <=? String.length s)
  && String.eqb (substring (String.length s - String.length p) (String.length p) s) p.

(** [s.index(c)]: position of the first [c]; [None] stands for the
    [ValueError] Python raises when there is none. *)
Fixpoint index (c : ascii) (s : string) : option nat :=
  match s with
  | EmptyString => None
  | String a s' =>
      if Ascii.eqb a c then Some 0
      else match index c s' with
           | Some i => Some (S i)
           | None => None
           end
  end.

(** [p in s] *)
Fixpoint contains (s p : string) : bool :=
  String.prefix p s
  || match s with
     | String _ s' => contains s' p
     | EmptyString => false
     end.

(** [s[i:-1]]: from position [i] up to, and without, the last character. *)
Definition slice_to_last (i : nat) (s : string) : string :=
  substring i (String.length s - 1 - i) s.

Fixpoint spaces (n : nat) : string :=
  match n with
  | O => EmptyString
  | S k => String " "%char (spaces k)
  end.

(** [s.ljust(width, " ")]: pads on the right up to [width] characters and
    returns [s] itself when it is already that long ([width] may be
    negative). *)
Definition ljust (s : string) (width : Z) : string :=
  s +:+ spaces (Z.to_nat (width - Z.of_nat (String.length s))).

(** [s.lstrip()], [s.rstrip()] and [s.strip()] *)
Fixpoint lstrip (s : string) : string :=
  match s with
  | EmptyString => EmptyString
  | String a s' => if isspace a then lstrip s' else s
  end.

Fixpoint rstrip (s : string) : string :=
  match s with
  | EmptyString => EmptyString
  | String a s' =>
      match rstrip s' with
      | EmptyString => if isspace a then EmptyString else String a EmptyString
      | r => String a r
      end
  end.

Definition strip (s : string) : string := rstrip (lstrip s).

(** The lines a text file yields when it is iterated: each line keeps its
    line feed, the last one may lack it, an empty file has no line. *)
Fixpoint readlines (s : string) : list string :=
  match s with
  | EmptyString => []
  | String a s' =>
      if Ascii.eqb a LF then String a EmptyString :: readlines s'
      else match readlines s' with
           | [] => [String a EmptyString]
           | l :: ls => String a l :: ls
           end
  end.

End Py.

(** ** The configuration directory *)

(** What [os.listdir] finds under a name: a regular file, or something
    [os.path.isfile] rejects.  The content of a file is its text as a text
    stream reads it and writes it (line ends are line feeds). *)
Inductive Entry :=
| File (content : string)
| NotAFile.

(** The directory [self.AFC.cfgloc] in listing order.  Names of one listing
    are distinct, so writing "the file at this position" is writing the file
    of that name. *)
Definition Directory := list (string * Entry).

(** ** ConfigRewrite *)

Section ConfigStore.

(** [re_compiles p] says that [re.compile(p)] returns a pattern, where it
    raises [re.error] otherwise; for a text [p] that compiles,
    [re_match p line] is [re.match(re.compile(p), line) is not None]. *)
Variable re_compiles : string -> bool.
Variable re_match : string -> string -> bool.

(** ["^\[\s*{}\s*\]".format(rawsection)]: the section name enters the
    regular expression as it is. *)
Definition section_pattern (rawsection : string) : string :=
  "^\[\s*" +:+ rawsection +:+ "\s*\]".

(** Lines 76-87: the replacement of a key line. *)
Definition rewrite_line (rawkey rawvalue line : string) : string :=
  let '(comment_index, comments) :=
    match Py.index "#"%char line with
    | Some i => (i, Py.slice_to_last i line)
    | None => (0, EmptyString)
    end in
  let line := rawkey +:+ ": " +:+ rawvalue in
  let line := Py.ljust line (Z.of_nat comment_index - 1) in
  line +:+ " " +:+ comments +:+ Py.nl.

(** The variables of the scan that outlive one line. *)
Record Scan := mkScan {
  sectionfound : bool;
  taskdone : bool;
  dataout : string
}.

(** Lines 72-74: a line that opens another section leaves the target
    section, a line that matches the header enters it. *)
Definition track_section (pattern : string) (sf : bool) (line : string) : bool :=
  let sf := if sf && Py.startswith line "[" then false else sf in
  if re_match pattern line then true else sf.

(** Lines 72-90: the body of [for line in f]. *)
Definition scan_line (pattern rawkey rawvalue : string) (st : Scan) (line : string) : Scan :=
  let sf := track_section pattern (sectionfound st) line in
  if sf && Py.startswith line rawkey
  then mkScan false true (dataout st +:+ rewrite_line rawkey rawvalue line)
  else mkScan sf (taskdone st) (dataout st +:+ line).

(** Lines 67-90: one file is read with [dataout] starting empty, while
    [sectionfound] and [taskdone] come from the enclosing function. *)
Definition scan_file (pattern rawkey rawvalue : string) (sf td : bool) (content : string) : Scan :=
  fold_left (scan_line pattern rawkey rawvalue) (Py.readlines content) (mkScan sf td EmptyString).

Definition saved_msg (rawsection rawkey rawvalue : string) : string :=
  Py.nl +:+ "<span class=info--text>Saved " +:+ rawkey +:+ ":" +:+ rawvalue +:+ " in "
  +:+ rawsection +:+ " section to configuration file</span>".

Definition not_found_msg (rawsection rawkey : string) : string :=
  Py.nl +:+ "<span class=info--text>Key " +:+ rawkey +:+ " not found in section "
  +:+ rawsection +:+ ", cannot update</span>".

(** What a call leaves behind: the directory, and the one message it hands
    to [self.logger.info]. *)
Record Rewritten := mkRewritten {
  files : Directory;
  logged : string
}.

(** Lines 64-100: the loop over the listing.  [sf] and [td] are
    [sectionfound] and [taskdone], which are set once before the loop. *)
Fixpoint scan_directory (rawsection rawkey rawvalue msg : string)
         (sf td : bool) (listing : Directory) : Rewritten :=
  match listing with
  | [] => mkRewritten [] (msg +:+ not_found_msg rawsection rawkey)
  | (filename, entry) :: rest =>
      let skip sf td :=
        let r := scan_directory rawsection rawkey rawvalue msg sf td rest in
        mkRewritten ((filename, entry) :: files r) (logged r) in
      match entry with
      | File content =>
          if Py.endswith filename ".cfg" then
            let st := scan_file (section_pattern rawsection) rawkey rawvalue sf td content in
            if taskdone st
            then mkRewritten ((filename, File (dataout st)) :: rest)
                             (msg +:+ saved_msg rawsection rawkey rawvalue)
            else skip (sectionfound st) (taskdone st)
          else skip sf td
      | NotAFile => skip sf td
      end
  end.

(** [ConfigRewrite(rawsection, rawkey, rawvalue, msg)] from line 64 on,
    with the pattern of line 63 compiled. *)
Definition ConfigRewrite (rawsection rawkey rawvalue msg : string) (dir : Directory) : Rewritten :=
  scan_directory rawsection rawkey rawvalue msg false false dir.

(** How a call ends: it runs to its end, or line 63 raises [re.error]. *)
Inductive Ended :=
| Ran (r : Rewritten)
| ReError.

(** [ConfigRewrite(rawsection, rawkey, rawvalue, msg)] from line 60 on.
    The section name is not escaped, so line 63 raises on a name that is
    not a regular expression, such as [AFC_hub (x]; that is before the
    directory is listed: nothing is read, written or logged. *)
Definition ConfigRewrite_call (rawsection rawkey rawvalue msg : string) (dir : Directory)
  : Ended :=
  if re_compiles (section_pattern rawsection)
  then Ran (ConfigRewrite rawsection rawkey rawvalue msg dir)
  else ReError.

End ConfigStore.

(** A matcher for the patterns [section_pattern] builds from a section name
    without regular-expression metacharacters: an opening bracket, any
    white space, the name, any white space, a closing bracket. *)
Module PlainRe.

(** [\s*] followed by [k], with backtracking. *)
Fixpoint ws_then (k : string -> bool) (s : string) : bool :=
  k s || match s with
         | String a s' => Py.isspace a && ws_then k s'
         | EmptyString => false
         end.

Fixpoint drop (n : nat) (s : string) : string :=
  match n, s with
  | S k, String _ s' => drop k s'
  | _, _ => s
  end.

Definition header (name line : string) : bool :=
  match line with
  | String "["%char rest =>
      ws_then (fun s => String.prefix name s
                        && ws_then (String.prefix "]") (drop (String.length name) s)) rest
  | _ => false
  end.

(** The section name between the fixed parts of the pattern text. *)
Definition name_of_pattern (p : string) : option string :=
  if String.prefix "^\[\s*" p && Py.endswith p "\s*\]" && (11 <=? String.length p)
  then Some (substring 6 (String.length p - 11) p)
  else None.

Definition re_match (p line : string) : bool :=
  match name_of_pattern p with
  | Some name => header name line
  | None => false
  end.

(** A character that stands for itself in a regular expression: a letter,
    a digit, an underscore or a space. *)
Definition plain (a : ascii) : bool :=
  let n := nat_of_ascii a in
  ((65 <=? n) && (n <=? 90)) || ((97 <=? n) && (n <=? 122))
  || ((48 <=? n) && (n <=? 57)) || (n =? 95) || (n =? 32).

(** The patterns this matcher answers for: those of a section name made of
    such characters, all of which [re.compile] accepts. *)
Definition re_compiles (p : string) : bool :=
  match name_of_pattern p with
  | Some name => forallb plain (list_ascii_of_string name)
  | None => false
  end.

End PlainRe.

(** ** The objects the commands work on *)

(** A lane, with the objects it refers to given by their names.  These
    references are set when the configuration is loaded. *)
Record Lane := mkLane {
  name : string;
  unit_obj : string;
  hub_obj : string;
  extruder_obj : string;
  buffer_obj : option string
}.

(** A unit and its own dictionary of lanes. *)
Record AFCUnit := mkUnit {
  unit_name : string;
  unit_lanes : list (string * Lane)
}.

(** The sensor pins of an extruder and the lane loaded in it. *)
Record Extruder := mkExtruder {
  tool_start : option string;
  tool_end : option string;
  lane_loaded : option string
}.

(** [self.AFC.lanes] and [self.AFC.units], in insertion order. *)
Record Registry := mkRegistry {
  lanes : list (string * Lane);
  units : list (string * AFCUnit)
}.

(** [d[k]] and [k in d] on a dictionary kept as an association list. *)
Fixpoint dict_get {V : Type} (k : string) (d : list (string * V)) : option V :=
  match d with
  | [] => None
  | (k', v) :: d' => if String.eqb k' k then Some v else dict_get k d'
  end.

Definition dict_values {V : Type} (d : list (string * V)) : list V := map snd d.

(** The exceptions that can leave a command. *)
Inductive Exn :=
| AttributeError (cls attr : string)
| KeyError (key : string)
| ValueError (arg : string)
| CommandError (msg : string)
| HandleError (msg : string).

(** The attributes an [afcFunction] instance is ever given, in [__init__]
    and in [handle_connect]. *)
Definition afcFunction_attributes : list string :=
  ["printer"; "errorLog"; "pause"; "AFC"; "logger"].

Section Commands.

(** The numbers of the host: Python floats, and the integer literals used
    as defaults.  Only what the commands do with them is needed. *)
Variable num : Type.
(** an integer literal *)
Variable num_of_Z : Z -> num.
(** [float(s)]; [None] stands for its [ValueError] *)
Variable float : string -> option num.
(** [x + y] *)
Variable add : num -> num -> num.
(** ["{}".format(x)] *)
Variable str : num -> string.

(** Whatever else the hardware handles read and change. *)
Variable Hardware : Type.

Record Hub := mkHub {
  hub_name : string;
  config_bowden_length : num;
  afc_bowden_length : num
}.

(** The mutable objects behind [self.AFC]. *)
Record State := mkState {
  extruders : string -> Extruder;
  hubs : gmap string Hub;
  current : option string;
  hardware : Hardware
}.

(** What a command does that can be observed from outside, in order: the
    messages it logs, the errors it reports, and its calls into the unit
    handles. *)
Inductive Event :=
| Info (msg : string)
| Raw (msg : string)
| AFC_error (msg : string)
| Calibrate_lane (unit : string) (lane : Lane) (tol : num)
| Calibrate_bowden (unit : string) (lane : Lane) (dis tol : num).

Definition is_hardware_call (e : Event) : bool :=
  match e with
  | Calibrate_lane _ _ _ | Calibrate_bowden _ _ _ _ => true
  | _ => false
  end.

(** A call into a unit: it returns a value and a changed state, or raises. *)
Inductive Handle (A : Type) :=
| Done (st : State) (a : A)
| Failed (st : State) (msg : string).
Arguments Done {A} st a.
Arguments Failed {A} st msg.

(** [unit.calibrate_lane(lane, tol)] returns [(checked, msg)];
    [unit.calibrate_bowden(lane, dis, tol)] returns a value the command
    does not look at.  The unit is given by its name.  A handle may change
    any part of the state; the dictionaries of lanes and units are not part
    of it, they are filled when the configuration is loaded. *)
Variable calibrate_lane : string -> Lane -> num -> State -> Handle (bool * string).
Variable calibrate_bowden : string -> Lane -> num -> num -> State -> Handle (bool * string).

(** *** A monad for the body of a command *)

Inductive Res (A : Type) :=
| Next (a : A) (st : State) (tr : list Event)
| Returned (st : State) (tr : list Event)
| Raised (e : Exn) (st : State) (tr : list Event).
Arguments Next {A} a st tr.
Arguments Returned {A} st tr.
Arguments Raised {A} e st tr.

Definition M (A : Type) : Type := State -> list Event -> Res A.

Definition pure {A} (a : A) : M A := fun st tr => Next a st tr.
Definition bind {A B} (m : M A) (k : A -> M B) : M B :=
  fun st tr =>
    match m st tr with
    | Next a st' tr' => k a st' tr'
    | Returned st' tr' => Returned st' tr'
    | Raised e st' tr' => Raised e st' tr'
    end.
(** the [return] statement *)
Definition return_ {A} : M A := fun st tr => Returned st tr.
Definition raise {A} (e : Exn) : M A := fun st tr => Raised e st tr.
Definition emit (e : Event) : M unit := fun st tr => Next tt st (tr ++ [e]).
Definition get : M State := fun st tr => Next st st tr.
Definition put (st : State) : M unit := fun _ tr => Next tt st tr.

Notation "x <- m ;; k" := (bind m (fun x => k))
  (at level 100, m at next level, right associativity).
Notation "m ;;; k" := (bind m (fun _ => k))
  (at level 100, right associativity).

(** A call into a unit handle is recorded, then made. *)
Definition call {A} (e : Event) (h : State -> Handle A) : M A :=
  fun st tr =>
    match h st with
    | Done st' a => Next a st' (tr ++ [e])
    | Failed st' msg => Raised (HandleError msg) st' (tr ++ [e])
    end.

(** How a command ends. *)
Inductive Outcome :=
| Return (st : State) (tr : list Event)
| Raise (e : Exn) (st : State) (tr : list Event).

Definition run (m : M unit) (st : State) : Outcome :=
  match m st [] with
  | Next _ st' tr | Returned st' tr => Return st' tr
  | Raised e st' tr => Raise e st' tr
  end.

(** *** The command parameters *)

(** [gcmd.get(name, None)] is the lookup in the parameters;
    [gcmd.get_float(name, default)] parses the parameter when it is
    there. *)
Definition get_float_value (gcmd : gmap string string) (param : string) (default : num)
  : option num :=
  match gcmd !! param with
  | None => Some default
  | Some v => float v
  end.

Definition get_float (gcmd : gmap string string) (param : string) (default : num) : M num :=
  match get_float_value gcmd param default with
  | Some x => pure x
  | None => raise (CommandError ("unable to parse " +:+ param))
  end.

(** [self.current]: no such attribute is ever set on the instance. *)
Definition self_current : M (option string) :=
  if existsb (String.eqb "current") afcFunction_attributes
  then pure None
  else raise (AttributeError "afcFunction" "current").

(** [CUR_LANE.extruder_obj.tool_start = v] *)
Definition set_tool_start (extruder : string) (v : option string) (st : State) : State :=
  let e := extruders st extruder in
  mkState (<[extruder := mkExtruder v (tool_end e) (lane_loaded e)]> (extruders st))
          (hubs st) (current st) (hardware st).

(** [CUR_HUB.afc_bowden_length = v], for the hub object [h] stored under
    [hub]. *)
Definition set_afc_bowden_length (hub : string) (h : Hub) (v : num) (st : State) : State :=
  mkState (extruders st)
          (<[hub := mkHub (hub_name h) (config_bowden_length h) v]> (hubs st))
          (current st) (hardware st).

(** *** CALIBRATE_AFC *)

(** Lines 423-427 and 438-442: the loop over a dictionary's lanes.
    [unit_of] gives the unit whose [calibrate_lane] is called; [cal_msg]
    is the local that collects the messages. *)
Fixpoint calibrate_each (unit_of : Lane -> string) (tol : num)
         (todo : list Lane) (cal_msg : string) : M string :=
  match todo with
  | [] => pure cal_msg
  | CUR_LANE :: rest =>
      r <- call (Calibrate_lane (unit_of CUR_LANE) CUR_LANE tol)
                (calibrate_lane (unit_of CUR_LANE) CUR_LANE tol) ;;
      if negb (fst r) then return_
      else calibrate_each unit_of tol rest (cal_msg +:+ snd r)
  end.

(** Lines 417-420 and 430-433: one named lane. *)
Definition calibrate_one (reg : Registry) (lane : string) (tol : num) (cal_msg : string) : M string :=
  match dict_get lane (lanes reg) with
  | None => raise (KeyError lane)
  | Some CUR_LANE =>
      r <- call (Calibrate_lane (unit_obj CUR_LANE) CUR_LANE tol)
                (calibrate_lane (unit_obj CUR_LANE) CUR_LANE tol) ;;
      if negb (fst r) then return_ else pure (cal_msg +:+ snd r)
  end.

(** Lines 412-447: the distance calibrations. *)
Definition calibrate_distances (reg : Registry) (lanes_param unit_param : option string)
           (tol : num) (cal_msg : string) : M string :=
  match lanes_param with
  | Some lane =>
      emit (Info "Starting AFC distance Calibrations") ;;;
      let cal_msg := cal_msg +:+ "AFC Calibration distances +/-" +:+ str tol +:+ "mm" in
      cal_msg <-
        match unit_param with
        | None =>
            if String.eqb lane "all"
            then calibrate_each unit_obj tol (dict_values (lanes reg)) cal_msg
            else calibrate_one reg lane tol cal_msg
        | Some unit =>
            if String.eqb lane "all"
            then
              match dict_get unit (units reg) with
              | None => raise (KeyError unit)
              | Some CUR_UNIT =>
                  emit (Info (unit_name CUR_UNIT)) ;;;
                  calibrate_each (fun _ => unit_name CUR_UNIT) tol
                                 (dict_values (unit_lanes CUR_UNIT)) cal_msg
              end
            else calibrate_one reg lane tol cal_msg
        end ;;
      emit (Info "Lane calibration Done!") ;;;
      pure cal_msg
  | None =>
      emit (Info "No lanes selected to calibrate dist_hub") ;;;
      pure cal_msg
  end.

(** Lines 450-471: the Bowden length calibration of lane [afc_bl]. *)
Definition calibrate_bowden_length (reg : Registry) (afc_bl : string)
           (dis tol : num) (cal_msg : string) : M unit :=
  match dict_get afc_bl (lanes reg) with
  | None => raise (KeyError afc_bl)
  | Some CUR_LANE =>
      st <- get ;;
      let ext := extruders st (extruder_obj CUR_LANE) in
      match tool_start ext, tool_end ext, buffer_obj CUR_LANE with
      | None, Some _, Some _ =>
          emit (Info "Cannot run calibration using post extruder sensor, using buffer to calibrate bowden length") ;;;
          put (set_tool_start (extruder_obj CUR_LANE) (Some "buffer") st) ;;;
          let set_tool_start_back_to_none := true in
          emit (Info "Starting AFC distance Calibrations") ;;;
          let cal_msg := cal_msg +:+ "AFC Calibration distances +/-" +:+ str tol +:+ "mm" in
          let cal_msg := cal_msg +:+ Py.nl
                         +:+ "<span class=info--text>Update values in AFC_Hardware.cfg</span>" in
          _ <- call (Calibrate_bowden (unit_obj CUR_LANE) CUR_LANE dis tol)
                    (calibrate_bowden (unit_obj CUR_LANE) CUR_LANE dis tol) ;;
          emit (Info "Bowden length calibration Done!") ;;;
          if set_tool_start_back_to_none
          then st' <- get ;; put (set_tool_start (extruder_obj CUR_LANE) None st')
          else pure tt
      | _, _, _ =>
          emit (AFC_error "Cannot calibrate with only post extruder sensor and no turtleneck buffer defined in config") ;;;
          return_
      end
  end.

Definition is_in {V : Type} (k : string) (d : list (string * V)) : bool :=
  match dict_get k d with Some _ => true | None => false end.

(** Lines 399-409: the names given must be known. *)
Definition check_names (reg : Registry) (lanes_param unit_param afc_bl : option string) : M unit :=
  match lanes_param with
  | Some l =>
      if negb (String.eqb l "all") && negb (is_in l (lanes reg))
      then emit (AFC_error ("'" +:+ l +:+ "' is not a valid lane")) ;;; return_
      else pure tt
  | None => pure tt
  end ;;;
  match unit_param with
  | Some u =>
      if negb (is_in u (units reg))
      then emit (AFC_error ("'" +:+ u +:+ "' is not a valid unit")) ;;; return_
      else pure tt
  | None => pure tt
  end ;;;
  match afc_bl with
  | Some b =>
      if negb (is_in b (lanes reg))
      then emit (AFC_error ("'" +:+ b +:+ "' is not a valid lane to calibrate bowden length")) ;;; return_
      else pure tt
  | None => pure tt
  end.

(** [cmd_CALIBRATE_AFC(gcmd)] *)
Definition cmd_CALIBRATE_AFC_body (reg : Registry) (gcmd : gmap string string) : M unit :=
  dis <- get_float gcmd "DISTANCE" (num_of_Z 25) ;;
  tol <- get_float gcmd "TOLERANCE" (num_of_Z 5) ;;
  let afc_bl := gcmd !! "BOWDEN" in
  let lanes_param := gcmd !! "LANE" in
  let unit_param := gcmd !! "UNIT" in
  st <- get ;;
  match current st, afc_bl with
  | Some _, Some _ =>
      emit (Info "Tool must be unloaded to calibrate Bowden length") ;;; return_
  | _, _ =>
  let cal_msg := EmptyString in
  check_names reg lanes_param unit_param afc_bl ;;;
  cal_msg <- calibrate_distances reg lanes_param unit_param tol cal_msg ;;
  match afc_bl with
  | Some b => calibrate_bowden_length reg b dis tol cal_msg
  | None => pure tt
  end
  end.

Definition cmd_CALIBRATE_AFC (reg : Registry) (gcmd : gmap string string) (st : State) : Outcome :=
  run (cmd_CALIBRATE_AFC_body reg gcmd) st.

(** *** SET_BOWDEN_LENGTH *)

Definition first_char (s : string) : option ascii :=
  match s with
  | String a _ => Some a
  | EmptyString => None
  end.

(** [length_param[0] in ('+', '-')] *)
Definition is_relative (length_param : string) : bool :=
  match first_char length_param with
  | Some a => Ascii.eqb a "+" || Ascii.eqb a "-"
  | None => false
  end.

Definition bowden_msg (hub : string) (h : Hub) (config_bowden bowden_length : num) : string :=
  "// Hub : " +:+ hub +:+ Py.nl
  +:+ "//   Config Bowden Length:   " +:+ str (config_bowden_length h) +:+ Py.nl
  +:+ "//   Previous Bowden Length: " +:+ str config_bowden +:+ Py.nl
  +:+ "//   New Bowden Length:      " +:+ str bowden_length +:+ Py.nl
  +:+ Py.nl +:+ "// TO SAVE BOWDEN LENGTH afc_bowden_length MUST BE UPDATED IN AFC_Hardware.cfg for each hub if there are multiple".

(** [cmd_SET_BOWDEN_LENGTH(gcmd)] *)
Definition cmd_SET_BOWDEN_LENGTH_body (reg : Registry) (gcmd : gmap string string) : M unit :=
  let hub := gcmd !! "HUB" in
  let length_param := gcmd !! "LENGTH" in
  st <- get ;;
  hub <-
    match hub, current st with
    | None, Some _ =>
        (* CUR_LANE = self.AFC.lanes[self.current]; hub = CUR_LANE.hub_obj.name *)
        key <- self_current ;;
        match key with
        | Some k =>
            match dict_get k (lanes reg) with
            | Some CUR_LANE => pure (hub_obj CUR_LANE)
            | None => raise (KeyError k)
            end
        | None => raise (KeyError "None")
        end
    | None, None =>
        (* elif hub is None and self.current is None *)
        c <- self_current ;;
        match c with
        | None =>
            emit (Info "A lane is not loaded please specify hub to adjust bowden length") ;;;
            return_
        | Some _ => raise (KeyError "None")
        end
    | Some h, _ => pure h
    end ;;
  match hubs st !! hub with
  | None => raise (KeyError hub)
  | Some CUR_HUB =>
      let config_bowden := afc_bowden_length CUR_HUB in
      bowden_length <-
        match length_param with
        | None => pure (config_bowden_length CUR_HUB)
        | Some lp =>
            if String.eqb (Py.strip lp) EmptyString
            then pure (config_bowden_length CUR_HUB)
            else
              if is_relative lp then
                match float lp with
                | Some bowden_value => pure (add config_bowden bowden_value)
                | None => raise (ValueError lp)
                end
              else
                match float lp with
                | Some v => pure v
                | None => raise (ValueError lp)
                end
        end ;;
      put (set_afc_bowden_length hub CUR_HUB bowden_length st) ;;;
      emit (Raw (bowden_msg hub CUR_HUB config_bowden bowden_length))
  end.

Definition cmd_SET_BOWDEN_LENGTH (reg : Registry) (gcmd : gmap string string) (st : State) : Outcome :=
  run (cmd_SET_BOWDEN_LENGTH_body reg gcmd) st.

(** *** Notions used to state what the commands do *)

(** The names pass the checks of lines 399-409. *)
Definition valid_names (reg : Registry) (lanes_param unit_param afc_bl : option string) : bool :=
  match lanes_param with
  | Some l => String.eqb l "all" || is_in l (lanes reg)
  | None => true
  end
  && match unit_param with
     | Some u => is_in u (units reg)
     | None => true
     end
  && match afc_bl with
     | Some b => is_in b (lanes reg)
     | None => true
     end.

(** The lanes a call with LANE=all goes through, with the unit whose
    handle is used for each and what is logged before the first pass. *)
Definition batch_of (reg : Registry) (unit_param : option string)
  : option (list Event * (Lane -> string) * list Lane) :=
  match unit_param with
  | None => Some ([], unit_obj, dict_values (lanes reg))
  | Some u =>
      match dict_get u (units reg) with
      | Some CUR_UNIT =>
          Some ([Info (unit_name CUR_UNIT)], fun _ => unit_name CUR_UNIT,
                dict_values (unit_lanes CUR_UNIT))
      | None => None
      end
  end.

(** The passes of the lanes [todo], made one after the other from [st],
    all succeed: the state they leave and their messages. *)
Fixpoint passes (unit_of : Lane -> string) (tol : num) (todo : list Lane) (st : State)
  : option (State * list string) :=
  match todo with
  | [] => Some (st, [])
  | l :: rest =>
      match calibrate_lane (unit_of l) l tol st with
      | Done st' (true, msg) =>
          match passes unit_of tol rest st' with
          | Some (st'', msgs) => Some (st'', msg :: msgs)
          | None => None
          end
      | _ => None
      end
  end.

(** The messages a trace shows to the operator. *)
Definition reported (tr : list Event) : list string :=
  flat_map (fun e => match e with
                     | Info m | Raw m | AFC_error m => [m]
                     | _ => []
                     end) tr.

End Commands.

Arguments mkHub {num} hub_name config_bowden_length afc_bowden_length.
Arguments hub_name {num} h.
Arguments config_bowden_length {num} h.
Arguments afc_bowden_length {num} h.
Arguments mkState {num Hardware} extruders hubs current hardware.
Arguments extruders {num Hardware} s.
Arguments hubs {num Hardware} s.
Arguments current {num Hardware} s.
Arguments hardware {num Hardware} s.
Arguments Info {num} msg.
Arguments Raw {num} msg.
Arguments AFC_error {num} msg.
Arguments Calibrate_lane {num} unit lane tol.
Arguments Calibrate_bowden {num} unit lane dis tol.
Arguments is_hardware_call {num} e.
Arguments Done {num Hardware A} st a.
Arguments Failed {num Hardware A} st msg.
Arguments Next {num Hardware A} a st tr.
Arguments Returned {num Hardware A} st tr.
Arguments Raised {num Hardware A} e st tr.
Arguments Return {num Hardware} st tr.
Arguments Raise {num Hardware} e st tr.
Arguments set_tool_start {num Hardware} extruder v st.
Arguments set_afc_bowden_length {num Hardware} hub h v st.
Arguments reported {num} tr.
Arguments pure {num Hardware A} a _ _.
Arguments bind {num Hardware A B} m k _ _.
Arguments return_ {num Hardware A} _ _.
Arguments raise {num Hardware A} e _ _.
Arguments emit {num Hardware} e _ _.
Arguments get {num Hardware} _ _.
Arguments put {num Hardware} st _ _.
Arguments call {num Hardware A} e h _ _.
Arguments run {num Hardware} m st.
Arguments self_current {num Hardware} _ _.
Arguments check_names {num Hardware} reg lanes_param unit_param afc_bl _ _.
Arguments batch_of {num} reg unit_param.

(** ** A small installation to run the commands on *)

(** Numbers are integers here ([float] reads an optionally signed run of
    digits), and the hardware is the count of passes made.  The unit handle
    fails the distance pass of the lane called lane3 and any Bowden pass. *)
Module Bench.

Definition digit (a : ascii) : option Z :=
  let n := nat_of_ascii a in
  if (48 <=? n) && (n <=? 57) then Some (Z.of_nat (n - 48)) else None.

Fixpoint digits (acc : Z) (s : string) : option Z :=
  match s with
  | EmptyString => Some acc
  | String a s' =>
      match digit a with
      | Some d => digits (10 * acc + d) s'
      | None => None
      end
  end.

Definition unsigned (s : string) : option Z :=
  match s with
  | EmptyString => None
  | _ => digits 0 s
  end.

Definition float (s : string) : option Z :=
  match s with
  | String "+"%char r => unsigned r
  | String "-"%char r => Z.opp <$> unsigned r
  | _ => unsigned s
  end.

Definition str (z : Z) : string := NilZero.string_of_int (Z.to_int z).

Definition tick (st : State Z nat) : State Z nat :=
  mkState (extruders st) (hubs st) (current st) (S (hardware st)).

Definition calibrate_lane (unit : string) (lane : Lane) (tol : Z) (st : State Z nat)
  : Handle Z nat (bool * string) :=
  Done (tick st)
       (negb (String.eqb (name lane) "lane3"), Py.nl +:+ name lane +:+ " dist_hub calibrated").

Definition calibrate_bowden (unit : string) (lane : Lane) (dis tol : Z) (st : State Z nat)
  : Handle Z nat (bool * string) :=
  Done (tick st) (false, "Failed to reach hub").

Definition lane1 := mkLane "lane1" "Turtle_1" "hub1" "extruder" (Some "TN").
Definition lane2 := mkLane "lane2" "Turtle_1" "hub1" "extruder" (Some "TN").
Definition lane3 := mkLane "lane3" "Turtle_1" "hub1" "extruder" None.
Definition lane4 := mkLane "lane4" "Turtle_1" "hub1" "extruder1" (Some "TN1").

Definition all_lanes : list (string * Lane) :=
  [("lane1", lane1); ("lane2", lane2); ("lane3", lane3); ("lane4", lane4)].

Definition reg : Registry :=
  mkRegistry all_lanes [("Turtle_1", mkUnit "Turtle_1" all_lanes)].

(** The extruder called extruder has only a sensor after the gears, the
    one called extruder1 has one before them. *)
Definition sensors (e : string) : Extruder :=
  if String.eqb e "extruder1" then mkExtruder (Some "PG11") None None
  else mkExtruder None (Some "PG13") None.

(** One hub, its length in the configuration 200, its working length 205;
    nothing is loaded. *)
Definition st0 : State Z nat :=
  mkState sensors {[ "hub1" := mkHub "hub1" 200%Z 205%Z ]} None 0.

Definition CALIBRATE_AFC := cmd_CALIBRATE_AFC Z id float str nat calibrate_lane calibrate_bowden reg.
Definition SET_BOWDEN_LENGTH := cmd_SET_BOWDEN_LENGTH Z float Z.add str nat reg.

Definition params (l : list (string * string)) : gmap string string := list_to_map l.

(** The working length of hub1 and the trace after a command. *)
Definition working (o : Outcome Z nat) : option Z :=
  match o with
  | Return st _ | Raise _ st _ => afc_bowden_length <$> (hubs st !! "hub1")
  end.

Definition trace (o : Outcome Z nat) : list (Event Z) :=
  match o with
  | Return _ tr | Raise _ _ tr => tr
  end.

(** Configuration directories, and [ConfigRewrite] with the matcher for
    plain section names. *)
Definition ConfigRewrite := ConfigRewrite PlainRe.re_match.

Definition hub_section : string := "AFC_hub Turtle_1".
Definition hub_header : string := "[AFC_hub Turtle_1]" +:+ Py.nl.

(** One file, the key followed by a comment in column 25. *)
Definition commented_line : string := "afc_bowden_length: 900   # measured" +:+ Py.nl.
Definition commented_dir : Directory :=
  [("AFC_Hardware.cfg", File (hub_header +:+ commented_line))].

(** The section at the end of one file, the key at the start of the
    next. *)
Definition split_dir : Directory :=
  [("AFC_Hardware.cfg", File hub_header);
   ("AFC_Macro_Vars.cfg", File ("afc_bowden_length: 5" +:+ Py.nl))].

(** The same two files, followed by two that each hold the section and
    its key. *)
Definition turtle_cfg (v : string) : Entry :=
  File (hub_header +:+ "afc_bowden_length: " +:+ v +:+ Py.nl).
Definition shadow_dir : Directory :=
  split_dir ++ [("AFC_Turtle_1.cfg", turtle_cfg "1"); ("AFC_Turtle_2.cfg", turtle_cfg "2")].

End Bench.

(** Whether a file has a line that matches the section header, and a line
    that starts with the key. *)
Definition has_section (re_match : string -> string -> bool) (rawsection : string) (e : Entry) : bool :=
  match e with
  | File content => existsb (re_match (section_pattern rawsection)) (Py.readlines content)
  | NotAFile => false
  end.

Definition has_key (rawkey : string) (e : Entry) : bool :=
  match e with
  | File content => existsb (fun line => Py.startswith line rawkey) (Py.readlines content)
  | NotAFile => false
  end.

(** The entries [ConfigRewrite] opens: regular files whose name ends in
    .cfg. *)
Definition scanned (f : string * Entry) : bool :=
  match snd f with
  | File _ => Py.endswith (fst f) ".cfg"
  | NotAFile => false
  end.

(** The text made of lines put one after the other. *)
Definition join (lines : list string) : string :=
  fold_right String.append EmptyString lines.


(** ** TcmdAssign *)

Module Tcmd.

(** [str(x)] for a number of [range(99)], and ['T'+str(x)]. *)
Definition str_nat (x : nat) : string := NilZero.string_of_uint (Nat.to_uint x).
Definition T (x : nat) : string := "T" +:+ str_nat x.

(** [cmd in self.AFC.tool_cmds] for the command of number [x]. *)
Definition taken (tool_cmds : gmap string string) (x : nat) : bool :=
  match tool_cmds !! T x with
  | Some _ => true
  | None => false
  end.

(** Lines 104-108: the first number among [x], [x+1], ... ([n] of them)
    whose command is not in [tool_cmds]. *)
Fixpoint first_free (tool_cmds : gmap string string) (n x : nat) : option nat :=
  match n with
  | O => None
  | S n' => if taken tool_cmds x then first_free tool_cmds n' (S x) else Some x
  end.

(** What the function does besides its two assignments. *)
Inductive Event :=
| Register_command (cmd : string)
| Info (msg : string)
| Save_vars.

(** The message of line 113; the lane name is printed as a list of one
    string (written here for a name without quote or backslash). *)
Definition map_error (name map : string) : string :=
  "Error trying to map lane ['" +:+ name +:+ "'] to " +:+ map
  +:+ ", please make sure there are no macros already setup for " +:+ map.

Record Assigned := mkAssigned {
  map : string;
  tool_cmds : gmap string string;
  events : list Event
}.

(** [TcmdAssign(CUR_LANE)], for a lane with the given [name] and [map].
    [accepts cmd] tells whether [gcode.register_command] takes the name or
    raises. *)
Definition TcmdAssign (accepts : string -> bool) (cmds : gmap string string)
           (name lane_map : string) : Assigned :=
  let lane_map :=
    if String.eqb lane_map "NONE" then
      match first_free cmds 99 0 with
      | Some x => T x
      | None => lane_map
      end
    else lane_map in
  mkAssigned lane_map (<[lane_map := name]> cmds)
             (Register_command lane_map
              :: (if accepts lane_map then [] else [Info (map_error name lane_map)])
              ++ [Save_vars]).

End Tcmd.

(** ** afcDeltaTime *)

Module DeltaTime.

(** The object: [start_time] and [last_time] are None until
    [set_start_time]; the attribute [major_delta_time] does not exist until
    then ([None] here).  A time is a reading of [datetime.now()], in
    microseconds. *)
Record t := mk {
  start_time : option Z;
  last_time : option Z;
  major_delta_time : option Z
}.

(** [__init__] *)
Definition init : t := mk None None None.

Inductive Exn :=
| TypeError
| AttributeError (attr : string).

(** A line handed to the logger, with the differences of readings it is
    made from, in microseconds as [datetime] subtracts them.  These are not
    what the line shows: see [text]. *)
Inductive Line :=
| Timed (debug : bool) (msg : string) (delta_time total_time : Z)
| Major (msg : string) (delta_time : Z)
| Total (msg : string) (total_time : Z).

(** The letter of [Δt], as its two bytes. *)
Definition Delta : string :=
  String (ascii_of_nat 206) (String (ascii_of_nat 148) EmptyString).

(** The text of a line.  [secs td] stands for
    ["{:.3f}".format(td.total_seconds())], for a difference [td] of two
    readings: the seconds as a float, printed with three decimals.  The
    text is rounded to the millisecond, so the times shown by several marks
    need not add up to the time shown for the whole. *)
Definition text (secs : Z -> string) (l : Line) : string :=
  match l with
  | Timed _ msg delta_time total_time =>
      msg +:+ " (" +:+ Delta +:+ "t:" +:+ secs delta_time +:+ "s, t:" +:+ secs total_time +:+ ")"
  | Major msg delta_time => msg +:+ " t:" +:+ secs delta_time
  | Total msg total_time => msg +:+ " t:" +:+ secs total_time
  end.

(** Whether the line goes to [logger.debug], where the others go to
    [logger.info]. *)
Definition to_debug (l : Line) : bool :=
  match l with
  | Timed debug _ _ _ => debug
  | _ => false
  end.

Inductive Res :=
| Ok (d : t) (lines : list Line)
| Raised (e : Exn).

(** [set_start_time()] at the reading [now] *)
Definition set_start_time (now : Z) (d : t) : Res :=
  Ok (mk (Some now) (Some now) (Some now)) [].

(** [log_with_time(msg, debug)] at the reading [now] *)
Definition log_with_time (msg : string) (debug : bool) (now : Z) (d : t) : Res :=
  match last_time d with
  | None => Raised TypeError
  | Some last =>
      match start_time d with
      | None => Raised TypeError
      | Some start =>
          Ok (mk (start_time d) (Some now) (major_delta_time d))
             [Timed debug msg (now - last) (now - start)]
      end
  end.

(** [log_major_delta(msg, debug)] at the reading [now]; [debug] is not
    looked at. *)
Definition log_major_delta (msg : string) (debug : bool) (now : Z) (d : t) : Res :=
  match major_delta_time d with
  | None => Raised (AttributeError "major_delta_time")
  | Some major =>
      Ok (mk (start_time d) (last_time d) (Some now)) [Major msg (now - major)]
  end.

(** [log_total_time(msg)] at the reading [now] *)
Definition log_total_time (msg : string) (now : Z) (d : t) : Res :=
  match start_time d with
  | None => Raised TypeError
  | Some start => Ok d [Total msg (now - start)]
  end.

(** A call of one of the four methods. *)
Inductive Call :=
| Set_start_time (now : Z)
| Log_with_time (msg : string) (debug : bool) (now : Z)
| Log_major_delta (msg : string) (debug : bool) (now : Z)
| Log_total_time (msg : string) (now : Z).

Definition call (c : Call) (d : t) : Res :=
  match c with
  | Set_start_time now => set_start_time now d
  | Log_with_time msg debug now => log_with_time msg debug now d
  | Log_major_delta msg debug now => log_major_delta msg debug now d
  | Log_total_time msg now => log_total_time msg now d
  end.

(** Calls made one after the other, up to the first that raises. *)
Fixpoint calls (cs : list Call) (d : t) : Res :=
  match cs with
  | [] => Ok d []
  | c :: rest =>
      match call c d with
      | Ok d' lines =>
          match calls rest d' with
          | Ok d'' lines' => Ok d'' (lines ++ lines')
          | Raised e => Raised e
          end
      | Raised e => Raised e
      end
  end.

(** The reading of the last fine mark among the calls, and of the last
    major mark; [t] when there is none. *)
Definition last_fine (t : Z) (cs : list Call) : Z :=
  fold_left (fun t c => match c with Log_with_time _ _ now => now | _ => t end) cs t.

Definition last_major (t : Z) (cs : list Call) : Z :=
  fold_left (fun t c => match c with Log_major_delta _ _ now => now | _ => t end) cs t.

(** A call that logs, as opposed to [set_start_time]. *)
Definition is_log (c : Call) : bool :=
  match c with
  | Set_start_time _ => false
  | _ => true
  end.

End DeltaTime.

(** ** afc_led and verify_led_object *)

Module Led.

(** [s.split(sep)] for a separator of one character: never empty. *)
Fixpoint split (sep : ascii) (s : string) : list string :=
  match s with
  | EmptyString => [EmptyString]
  | String a s' =>
      if Ascii.eqb a sep then EmptyString :: split sep s'
      else match split sep s' with
           | piece :: pieces => String a piece :: pieces
           | [] => [String a EmptyString]
           end
  end.

(** ['AFC_led ' + led_name.split(':')[0]] *)
Definition led_object (led_name : string) : string :=
  "AFC_led " +:+ hd EmptyString (split ":" led_name).

(** The error string of line 216, which ends with [led_name.split(':')[-1]]. *)
Definition cannot_find (led_name : string) : string :=
  "Error: Cannot find [" +:+ led_object led_name
  +:+ "] in config, make sure led_index in config is correct for AFC_stepper "
  +:+ last (split ":" led_name) EmptyString.

(** [verify_led_object(led_name)]: the error string and the led object, the
    latter given by its name.  [objects name] tells whether
    [printer.lookup_object(name)] finds an object or raises. *)
Definition verify_led_object (objects : string -> bool) (led_name : string)
  : string * option string :=
  if objects (led_object led_name)
  then (EmptyString, Some (led_object led_name))
  else (cannot_find led_name, None).

Inductive Event :=
| Led_change (led : string) (index : Z) (status : string)
| Info (msg : string).

Inductive Exn :=
| IndexError
| ValueError (text : string).

(** [afc_led(status, idx)]; [int text] is [int(text)], [None] for its
    [ValueError]. *)
Definition afc_led (objects : string -> bool) (int : string -> option Z)
           (status : string) (idx : option string) : Exn + list Event :=
  match idx with
  | None => inr []
  | Some idx =>
      match verify_led_object objects idx with
      | (_, Some led) =>
          match nth_error (split ":" idx) 1 with
          | None => inl IndexError
          | Some piece =>
              match int piece with
              | Some n => inr [Led_change led n status]
              | None => inl (ValueError piece)
              end
          end
      | (error_string, None) => inr [Info error_string]
      end
  end.

End Led.

(** ** get_current_lane_obj and handle_activate_extruder *)

Module Activate.

(** What these functions read of a lane. *)
Record LaneObj := mkLane {
  name : string;
  led_index : option string;
  led_ready : string;
  led_tool_loaded : string;
  spool_id : string
}.

(** What they read of the printer: its state message, the name of the
    extruder of the toolhead, [self.AFC.tools] with the [lane_loaded] of each
    extruder, and [self.AFC.lanes]. *)
Record AFC := mk {
  state_message : string;
  current_extruder : string;
  tools : list (string * option string);
  lanes : list (string * LaneObj)
}.

(** [get_current_lane()] *)
Definition get_current_lane (a : AFC) : option string :=
  if String.eqb (state_message a) "Printer is ready" then
    match dict_get (current_extruder a) (tools a) with
    | Some lane_loaded => lane_loaded
    | None => None
    end
  else None.

(** [get_current_lane_obj()] *)
Definition get_current_lane_obj (a : AFC) : option LaneObj :=
  match get_current_lane a with
  | Some curr_lane => dict_get curr_lane (lanes a)
  | None => None
  end.

(** The calls made on lanes, leds and the spool manager; a lane of the
    dictionary is given by its key. *)
Inductive Event :=
| Do_enable (lane : string) (enable : bool)
| Disable_buffer (lane : string)
| Enable_buffer (lane : string)
| Led (e : Led.Event)
| Set_active_spool (id : string).

(** Lines 247-251: the loop over the lanes.  The result is what was done,
    and the exception of [afc_led] that ended it, if any. *)
Fixpoint disable_others (objects : string -> bool) (int : string -> option Z)
         (cur_lane_loaded : option LaneObj) (todo : list (string * LaneObj))
  : list Event * option Led.Exn :=
  match todo with
  | [] => ([], None)
  | (key, obj) :: rest =>
      if match cur_lane_loaded with
         | None => true
         | Some cur => negb (String.eqb key (name cur))
         end
      then
        match Led.afc_led objects int (led_ready obj) (led_index obj) with
        | inl e => ([Do_enable key false; Disable_buffer key], Some e)
        | inr leds =>
            let '(more, exn) := disable_others objects int cur_lane_loaded rest in
            (Do_enable key false :: Disable_buffer key :: map Led leds ++ more, exn)
        end
      else disable_others objects int cur_lane_loaded rest
  end.

(** [handle_activate_extruder()] *)
Definition handle_activate_extruder (objects : string -> bool) (int : string -> option Z)
           (a : AFC) : list Event * option Led.Exn :=
  let cur_lane_loaded := get_current_lane_obj a in
  match disable_others objects int cur_lane_loaded (lanes a) with
  | (done, Some e) => (done, Some e)
  | (done, None) =>
      match cur_lane_loaded, get_current_lane a with
      | Some cur, Some key =>
          match Led.afc_led objects int (led_tool_loaded cur) (led_index cur) with
          | inl e => (done ++ [Set_active_spool (spool_id cur)], Some e)
          | inr leds =>
              (done ++ Set_active_spool (spool_id cur) :: map Led leds
                    ++ [Do_enable key true; Enable_buffer key], None)
          end
      | _, _ => (done ++ [Set_active_spool EmptyString], None)
      end
  end.

(** The calls that are not led calls. *)
Definition not_led (e : Event) : bool :=
  match e with
  | Led _ => false
  | _ => true
  end.

End Activate.

(** ** HexConvert *)

Module Hex.

(** [format(n, 'x')] and ['{:02x}'.format(n)] for a number that is not
    negative. *)
Definition hex (n : N) : string :=
  HexadecimalString.NilZero.string_of_uint (N.to_hex_uint n).

Definition hex02 (n : N) : string :=
  if String.length (hex n) <? 2 then "0" +:+ hex n else hex n.

Inductive Exn :=
| IndexError
| NumberError (text : string).

(** [led[i]] after lines 290-301.  [level text] is
    [int(255*float(text)) if float(text) > 0 else 0], a number that is not
    negative; [None] when [float] or [int] raises. *)
Definition channel (level : string -> option N) (led : list string) (i : nat) : Exn + N :=
  match nth_error led i with
  | None => inl IndexError
  | Some text =>
      match level text with
      | Some n => inr n
      | None => inl (NumberError text)
      end
  end.

(** [HexConvert(tmp)] *)
Definition HexConvert (level : string -> option N) (tmp : string) : Exn + string :=
  let led := Led.split "," tmp in
  match channel level led 0 with
  | inl e => inl e
  | inr r =>
      match channel level led 1 with
      | inl e => inl e
      | inr g =>
          match channel level led 2 with
          | inl e => inl e
          | inr b => inr ("#" +:+ hex02 r +:+ hex02 g +:+ hex02 b)
          end
      end
  end.

End Hex.

(** ** More to run the functions on *)

Module Yard.

(** A configuration file with the section of the hub between two others. *)
Definition hardware_cfg : string :=
  "[AFC]" +:+ Py.nl +:+ "speed: 1" +:+ Py.nl
  +:+ Bench.hub_header +:+ "cut: True" +:+ Py.nl +:+ Bench.commented_line
  +:+ "[AFC_hub Turtle_2]" +:+ Py.nl +:+ "afc_bowden_length: 5" +:+ Py.nl.

Definition afc_cfg : Entry := File ("[AFC]" +:+ Py.nl +:+ "speed: 1" +:+ Py.nl).

(** A text file that is not a configuration file, though it has the section
    and the key. *)
Definition notes : string * Entry :=
  ("notes.txt", File (Bench.hub_header +:+ "afc_bowden_length: 1" +:+ Py.nl)).

(** A unit whose distance passes all succeed, and one whose Bowden pass
    raises. *)
Definition calibrate_lane_ok (unit : string) (lane : Lane) (tol : Z) (st : State Z nat)
  : Handle Z nat (bool * string) :=
  Done (Bench.tick st) (true, Py.nl +:+ name lane +:+ " dist_hub calibrated").

Definition calibrate_bowden_raises (unit : string) (lane : Lane) (dis tol : Z) (st : State Z nat)
  : Handle Z nat (bool * string) :=
  Failed st "Timer too close".

(** The state of the bench with lane1 loaded. *)
Definition loaded : State Z nat :=
  mkState (extruders Bench.st0) (hubs Bench.st0) (Some "lane1") (hardware Bench.st0).

(** A table of commands with T0 and T1 taken, and one with T0 ... T98
    taken. *)
Definition two_taken : gmap string string :=
  list_to_map [("T0", "lane1"); ("T1", "lane2")].

Definition all_taken : gmap string string :=
  list_to_map (List.map (fun x => (Tcmd.T x, "lane")) (seq 0 99)).

(** Two lanes with leds, lane2 loaded in the extruder of the toolhead. *)
Definition led_lane (n led : string) : Activate.LaneObj :=
  Activate.mkLane n (Some led) "0,0,1,0" "1,0,0,0" ("spool of " +:+ n).

Definition ready : Activate.AFC :=
  Activate.mk "Printer is ready" "extruder" [("extruder", Some "lane2")]
              [("lane1", led_lane "lane1" "AFC_Indicator:1");
               ("lane2", led_lane "lane2" "AFC_Indicator:2");
               ("lane3", led_lane "lane3" "AFC_Indicator:3")].

Definition starting : Activate.AFC :=
  Activate.mk "Printer is not ready" "extruder" (Activate.tools ready) (Activate.lanes ready).

Definition objects (n : string) : bool := String.eqb n "AFC_led AFC_Indicator".

Definition int (text : string) : option Z := Bench.float text.

End Yard.

Example readlines_ex :
  Py.readlines ("ab" +:+ Py.nl +:+ Py.nl +:+ "c") = ["ab" +:+ Py.nl; Py.nl; "c"].
Proof. reflexivity. Qed.

Example rewrite_line_ex :
  rewrite_line "k" "22" ("k: 1    # c" +:+ Py.nl) = "k: 22   # c" +:+ Py.nl.
Proof. reflexivity. Qed.

Example plain_header_ex :
  PlainRe.re_match (section_pattern "AFC_hub Turtle_1") ("[ AFC_hub Turtle_1 ] # x" +:+ Py.nl) = true.
Proof. reflexivity. Qed.

(** ** Facts about the string primitives *)

Lemma append_cons a s t : String a s +:+ t = String a (s +:+ t).
Proof. reflexivity. Qed.

Lemma append_empty_l t : EmptyString +:+ t = t.
Proof. reflexivity. Qed.

Lemma length_append s t :
  String.length (s +:+ t) = String.length s + String.length t.
Proof.
  induction s as [|a s IH]; [reflexivity|].
  rewrite append_cons. simpl. now rewrite IH.
Qed.

Lemma length_spaces n : String.length (Py.spaces n) = n.
Proof. induction n as [|n IH]; simpl; congruence. Qed.

Lemma index_spaces c n : c <> " "%char -> Py.index c (Py.spaces n) = None.
Proof.
  intros Hc. induction n as [|n IH]; [reflexivity|].
  change (Py.index c (Py.spaces (S n)))
    with (if Ascii.eqb " " c then Some 0
          else match Py.index c (Py.spaces n) with
               | Some i => Some (S i)
               | None => None
               end).
  destruct (Ascii.eqb_spec " " c) as [E|_]; [congruence|].
  now rewrite IH.
Qed.

Lemma index_append_none c s t :
  Py.index c s = None ->
  Py.index c (s +:+ t) = (fun i => String.length s + i) <$> Py.index c t.
Proof.
  induction s as [|a s IH]; intros H.
  - rewrite append_empty_l. now destruct (Py.index c t).
  - rewrite append_cons. simpl in *.
    destruct (Ascii.eqb a c); [discriminate|].
    destruct (Py.index c s); [discriminate|].
    rewrite IH by reflexivity. now destruct (Py.index c t).
Qed.

Lemma index_none_append c s t :
  Py.index c s = None -> Py.index c t = None -> Py.index c (s +:+ t) = None.
Proof. intros Hs Ht. rewrite index_append_none by assumption. now rewrite Ht. Qed.

Lemma index_head c s : Py.index c (String c s) = Some 0.
Proof. simpl. now rewrite Ascii.eqb_refl. Qed.

Lemma index_lt c s i : Py.index c s = Some i -> i < String.length s.
Proof.
  revert i. induction s as [|a s IH]; intros i H; simpl in *; [discriminate|].
  destruct (Ascii.eqb a c).
  - injection H as <-. lia.
  - destruct (Py.index c s) as [j|]; [|discriminate].
    injection H as <-. specialize (IH j eq_refl). lia.
Qed.

(** A slice that starts where [index] found the character starts with it. *)
Lemma substring_at_index c s i n :
  Py.index c s = Some i ->
  exists r, substring i (S n) s = String c r.
Proof.
  revert i. induction s as [|a s IH]; intros i H; simpl in H; [discriminate|].
  destruct (Ascii.eqb_spec a c) as [->|_].
  - injection H as <-. simpl. eauto.
  - destruct (Py.index c s) as [j|]; [|discriminate].
    injection H as <-. simpl. now apply IH.
Qed.

Lemma length_ljust s w :
  String.length (Py.ljust s w) = Nat.max (String.length s) (Z.to_nat w).
Proof.
  unfold Py.ljust. rewrite length_append, length_spaces.
  generalize (String.length s). intros n.
  destruct (Z_le_gt_dec w (Z.of_nat n)) as [H|H].
  - replace (Z.to_nat (w - Z.of_nat n)) with 0 by lia. lia.
  - rewrite Z2Nat.inj_sub, Nat2Z.id by lia. lia.
Qed.

Lemma index_ljust c s w :
  c <> " "%char -> Py.index c s = None -> Py.index c (Py.ljust s w) = None.
Proof.
  intros Hc Hs. unfold Py.ljust. apply index_none_append; [assumption|].
  now apply index_spaces.
Qed.

(** ** Facts about ConfigRewrite *)

Section ConfigStoreFacts.

Variable re_match : string -> string -> bool.


Lemma scan_line_other pattern rawkey rawvalue st line :
  track_section re_match pattern (sectionfound st) line
  && Py.startswith line rawkey = false ->
  scan_line re_match pattern rawkey rawvalue st line
  = mkScan (track_section re_match pattern (sectionfound st) line)
           (taskdone st) (dataout st +:+ line).
Proof. intros H. unfold scan_line. now rewrite H. Qed.

(** A call writes at most one file, and leaves every other entry of the
    directory as it was. *)
Lemma scan_directory_shape rawsection rawkey rawvalue msg dir : forall sf td,
  (files (scan_directory re_match rawsection rawkey rawvalue msg sf td dir) = dir
   /\ logged (scan_directory re_match rawsection rawkey rawvalue msg sf td dir)
      = msg +:+ not_found_msg rawsection rawkey)
  \/ (exists before filename content written after,
        dir = before ++ (filename, File content) :: after
        /\ files (scan_directory re_match rawsection rawkey rawvalue msg sf td dir)
           = before ++ (filename, File written) :: after
        /\ logged (scan_directory re_match rawsection rawkey rawvalue msg sf td dir)
           = msg +:+ saved_msg rawsection rawkey rawvalue).
Proof.
  induction dir as [|[filename entry] rest IH]; intros sf td.
  - now left.
  - assert (Hskip : forall sf' td',
      ((filename, entry)
         :: files (scan_directory re_match rawsection rawkey rawvalue msg sf' td' rest)
       = (filename, entry) :: rest
       /\ logged (scan_directory re_match rawsection rawkey rawvalue msg sf' td' rest)
          = msg +:+ not_found_msg rawsection rawkey)
      \/ (exists before filename' content written after,
             (filename, entry) :: rest = before ++ (filename', File content) :: after
             /\ (filename, entry)
                  :: files (scan_directory re_match rawsection rawkey rawvalue msg sf' td' rest)
                = before ++ (filename', File written) :: after
             /\ logged (scan_directory re_match rawsection rawkey rawvalue msg sf' td' rest)
                = msg +:+ saved_msg rawsection rawkey rawvalue)).
    { intros sf' td'.
      destruct (IH sf' td') as [[Hf Hl]|(b & f & c & w & a & Hd & Hf & Hl)].
      - left. now rewrite Hf.
      - right. exists ((filename, entry) :: b), f, c, w, a.
        repeat split; [now rewrite Hd at 1 | now rewrite Hf | exact Hl]. }
    simpl. destruct entry as [content|]; [|apply Hskip].
    destruct (Py.endswith filename ".cfg"); [|apply Hskip].
    destruct (taskdone (scan_file re_match (section_pattern rawsection)
                                  rawkey rawvalue sf td content)) eqn:Htd.
    + right. exists [], filename, content,
        (dataout (scan_file re_match (section_pattern rawsection)
                            rawkey rawvalue sf td content)), rest.
      simpl. auto.
    + apply Hskip.
Qed.

(** Lines that do not start with the key leave [taskdone] as it is. *)
Lemma scan_lines_no_key pattern rawkey rawvalue lines : forall st,
  existsb (fun line => Py.startswith line rawkey) lines = false ->
  taskdone (fold_left (scan_line re_match pattern rawkey rawvalue) lines st) = taskdone st.
Proof.
  induction lines as [|line lines IH]; intros st H; [reflexivity|].
  simpl in H. apply orb_false_elim in H as [Hline Hrest].
  simpl. rewrite (IH _ Hrest). unfold scan_line. rewrite Hline.
  now rewrite andb_false_r.
Qed.

(** Lines that do not match the header leave the scan outside the
    section. *)
Lemma scan_lines_no_section pattern rawkey rawvalue lines : forall st,
  sectionfound st = false ->
  existsb (re_match pattern) lines = false ->
  taskdone (fold_left (scan_line re_match pattern rawkey rawvalue) lines st) = taskdone st
  /\ sectionfound (fold_left (scan_line re_match pattern rawkey rawvalue) lines st) = false.
Proof.
  induction lines as [|line lines IH]; intros st Hsf H; [now split|].
  simpl in H. apply orb_false_elim in H as [Hline Hrest].
  simpl.
  assert (Hstep : scan_line re_match pattern rawkey rawvalue st line
                  = mkScan false (taskdone st) (dataout st +:+ line)).
  { unfold scan_line, track_section. now rewrite Hsf, Hline. }
  rewrite Hstep.
  destruct (IH (mkScan false (taskdone st) (dataout st +:+ line)) eq_refl Hrest)
    as [Htd Hout].
  split; [exact Htd | exact Hout].
Qed.

(** When no file has a line that starts with the key, or none has a line
    that matches the section header, the call writes nothing and logs that
    the key was not found. *)
Lemma config_rewrite_not_found rawsection rawkey rawvalue msg dir :
  forallb (fun f => negb (has_key rawkey (snd f))) dir = true
  \/ forallb (fun f => negb (has_section re_match rawsection (snd f))) dir = true ->
  ConfigRewrite re_match rawsection rawkey rawvalue msg dir
  = mkRewritten dir (msg +:+ not_found_msg rawsection rawkey).
Proof.
  unfold ConfigRewrite. intros [Hkey|Hsec].
  - generalize false at 1. induction dir as [|[filename entry] rest IH]; intros sf;
      [reflexivity|].
    simpl in Hkey. apply andb_prop in Hkey as [Hhere Hrest]. simpl.
    destruct entry as [content|]; [|now rewrite (IH Hrest)].
    destruct (Py.endswith filename ".cfg"); [|now rewrite (IH Hrest)].
    unfold scan_file. rewrite scan_lines_no_key by (simpl in Hhere; now destruct (existsb _ _)).
    simpl. now rewrite (IH Hrest).
  - induction dir as [|[filename entry] rest IH]; [reflexivity|].
    simpl in Hsec. apply andb_prop in Hsec as [Hhere Hrest]. simpl.
    destruct entry as [content|]; [|now rewrite (IH Hrest)].
    destruct (Py.endswith filename ".cfg"); [|now rewrite (IH Hrest)].
    unfold scan_file.
    destruct (scan_lines_no_section (section_pattern rawsection) rawkey rawvalue
                (Py.readlines content) (mkScan false false EmptyString) eq_refl)
      as [Htd Hsf]; [simpl in Hhere; now destruct (existsb _ _)|].
    rewrite Htd, Hsf. simpl. now rewrite (IH Hrest).
Qed.

End ConfigStoreFacts.

(** The column of the comment after a rewrite: the key, the value and one
    space come first, so the comment keeps its column when they fit before
    it and moves right when they do not. *)
Lemma rewrite_line_index rawkey rawvalue line c :
  Py.index "#" line = Some c ->
  S c < String.length line ->
  Py.index "#" rawkey = None ->
  Py.index "#" rawvalue = None ->
  Py.index "#" (rewrite_line rawkey rawvalue line)
  = Some (Nat.max c (String.length rawkey + String.length rawvalue + 3)).
Proof.
  intros Hc Hlen Hk Hv. unfold rewrite_line. rewrite Hc.
  unfold Py.slice_to_last.
  destruct (substring_at_index "#" line c (String.length line - 1 - c - 1) Hc) as [r Hr].
  replace (S (String.length line - 1 - c - 1)) with (String.length line - 1 - c) in Hr by lia.
  rewrite Hr.
  rewrite index_append_none.
  2:{ apply index_ljust; [discriminate|].
      apply index_none_append; [assumption|].
      apply index_none_append; [reflexivity|assumption]. }
  rewrite index_append_none by reflexivity.
  rewrite (append_cons "#" r), index_head. cbn [fmap option_fmap option_map].
  f_equal. rewrite length_ljust, !length_append.
  change (String.length ": ") with 2. change (String.length " ") with 1. lia.
Qed.

(** C4: the comment of a rewritten key line starts one column after the
    longer of the padded-to-the-old-column text and the new key and value:
    for a key line whose first # is in column c (and is not its last
    character), and a key and a value without #, the rewritten line has its
    first # in column max(c, len(key) + len(value) + 3).  That is column c
    when key, colon, space, value and one more space fit in the c columns
    before it, and a column further right otherwise: the value is never cut
    short to keep the comment in place. *)
Theorem rewrite_line_comment_column rawkey rawvalue line c :
  Py.index "#" line = Some c ->
  S c < String.length line ->
  Py.index "#" rawkey = None ->
  Py.index "#" rawvalue = None ->
  (String.length rawkey + String.length rawvalue + 3 <= c ->
   Py.index "#" (rewrite_line rawkey rawvalue line) = Some c)
  /\ (c < String.length rawkey + String.length rawvalue + 3 ->
      Py.index "#" (rewrite_line rawkey rawvalue line)
      = Some (String.length rawkey + String.length rawvalue + 3)).
Proof.
  intros Hc Hlen Hk Hv.
  pose proof (rewrite_line_index rawkey rawvalue line c Hc Hlen Hk Hv) as H.
  split; intros Hfit; rewrite H; f_equal; lia.
Qed.

Lemma rewrite_line_comment_column_witness :
  Py.index "#" (rewrite_line "afc_bowden_length" "1" Bench.commented_line) = Some 25
  /\ Py.index "#" (rewrite_line "afc_bowden_length" "1234.5678" Bench.commented_line) = Some 29.
Proof.
  destruct (rewrite_line_comment_column "afc_bowden_length" "1" Bench.commented_line 25)
    as [Hfit _]; [reflexivity | vm_compute; lia | reflexivity | reflexivity |].
  destruct (rewrite_line_comment_column "afc_bowden_length" "1234.5678" Bench.commented_line 25)
    as [_ Hlong]; [reflexivity | vm_compute; lia | reflexivity | reflexivity |].
  split; [apply Hfit; vm_compute; lia | apply Hlong; vm_compute; lia].
Defined.

(** C4, as stated, fails: the key line has its comment in column 25; with
    the value 1234.5678 the call writes a line whose comment starts in
    column 29. *)
Lemma comment_column_not_kept :
  Py.index "#" Bench.commented_line = Some 25
  /\ files (Bench.ConfigRewrite Bench.hub_section "afc_bowden_length" "1234.5678" "" Bench.commented_dir)
     = [("AFC_Hardware.cfg",
         File (Bench.hub_header +:+ "afc_bowden_length: 1234.5678 # measured" +:+ Py.nl))]
  /\ Py.index "#" ("afc_bowden_length: 1234.5678 # measured" +:+ Py.nl) <> Some 25.
Proof. repeat split; [vm_compute; discriminate]. Qed.

(** C5: the section state crosses from one file into the next.  The first
    file ends inside the target section; the second has no section header at
    all, and yet its key line is rewritten. *)
Theorem section_state_crosses_files :
  has_section PlainRe.re_match Bench.hub_section
              (File ("afc_bowden_length: 5" +:+ Py.nl)) = false
  /\ sectionfound (scan_file PlainRe.re_match (section_pattern Bench.hub_section)
                             "afc_bowden_length" "900" false false Bench.hub_header) = true
  /\ files (Bench.ConfigRewrite Bench.hub_section "afc_bowden_length" "900" "" Bench.split_dir)
     = [("AFC_Hardware.cfg", File Bench.hub_header);
        ("AFC_Macro_Vars.cfg", File ("afc_bowden_length: 900 " +:+ Py.nl))].
Proof. repeat split. Qed.

(** C6: no file holds the section together with the key (the one with the
    header has no key line, the one with the key line has no header), and
    the call still reports a saved key and writes a file. *)
Theorem saved_without_section_and_key_in_one_file :
  forallb (fun f => negb (has_section PlainRe.re_match Bench.hub_section (snd f)
                          && has_key "afc_bowden_length" (snd f))) Bench.split_dir = true
  /\ logged (Bench.ConfigRewrite Bench.hub_section "afc_bowden_length" "900" "" Bench.split_dir)
     = saved_msg Bench.hub_section "afc_bowden_length" "900"
  /\ files (Bench.ConfigRewrite Bench.hub_section "afc_bowden_length" "900" "" Bench.split_dir)
     <> Bench.split_dir.
Proof. repeat split. vm_compute. discriminate. Qed.

(** C7: the third and the fourth file hold the section and its key, the
    first two do not; the call rewrites the second file and leaves the third,
    the first one that matches, as it was. *)
Theorem first_matching_file_not_rewritten :
  map (fun f => has_section PlainRe.re_match Bench.hub_section (snd f)
                && has_key "afc_bowden_length" (snd f)) Bench.shadow_dir
  = [false; false; true; true]
  /\ files (Bench.ConfigRewrite Bench.hub_section "afc_bowden_length" "900" "" Bench.shadow_dir)
     = [("AFC_Hardware.cfg", File Bench.hub_header);
        ("AFC_Macro_Vars.cfg", File ("afc_bowden_length: 900 " +:+ Py.nl));
        ("AFC_Turtle_1.cfg", Bench.turtle_cfg "1");
        ("AFC_Turtle_2.cfg", Bench.turtle_cfg "2")].
Proof. repeat split. Qed.

(** ** Facts about the commands *)

Section CommandFacts.

Context {num : Type} (num_of_Z : Z -> num) (float : string -> option num)
        (add : num -> num -> num) (str : num -> string) {Hardware : Type}
        (calibrate_lane : string -> Lane -> num -> State num Hardware
                          -> Handle num Hardware (bool * string))
        (calibrate_bowden : string -> Lane -> num -> num -> State num Hardware
                            -> Handle num Hardware (bool * string)).

Local Abbreviation State := (State num Hardware).
Local Abbreviation SET_BOWDEN_LENGTH := (cmd_SET_BOWDEN_LENGTH num float add str Hardware).
Local Abbreviation CALIBRATE_AFC :=
  (cmd_CALIBRATE_AFC num num_of_Z float str Hardware calibrate_lane calibrate_bowden).
Local Abbreviation distances :=
  (calibrate_distances num str Hardware calibrate_lane).
Local Abbreviation bowden_length :=
  (calibrate_bowden_length num str Hardware calibrate_bowden).
Local Abbreviation each := (calibrate_each num Hardware calibrate_lane).
Local Abbreviation float_value := (get_float_value num float).

(** *** SET_BOWDEN_LENGTH *)

Lemma lookup_set_afc_bowden_length hub (h : Hub num) v (st : State) :
  hubs (set_afc_bowden_length hub h v st) !! hub
  = Some (mkHub (hub_name h) (config_bowden_length h) v).
Proof. unfold set_afc_bowden_length. simpl. apply lookup_insert_eq. Qed.

Lemma lookup_set_afc_bowden_length_ne hub other (h : Hub num) v (st : State) :
  hub <> other ->
  hubs (set_afc_bowden_length hub h v st) !! other = hubs st !! other.
Proof. intros Hne. unfold set_afc_bowden_length. simpl. now apply lookup_insert_ne. Qed.

(** With a hub named and known, the command is decided by LENGTH. *)
Lemma set_bowden_length_named reg gcmd (st : State) hub CUR_HUB :
  gcmd !! "HUB" = Some hub ->
  hubs st !! hub = Some CUR_HUB ->
  SET_BOWDEN_LENGTH reg gcmd st
  = match
      match gcmd !! "LENGTH" with
      | None => Some (config_bowden_length CUR_HUB)
      | Some lp =>
          if String.eqb (Py.strip lp) EmptyString then Some (config_bowden_length CUR_HUB)
          else if is_relative lp then add (afc_bowden_length CUR_HUB) <$> float lp
               else float lp
      end
    with
    | Some bowden_length =>
        Return (set_afc_bowden_length hub CUR_HUB bowden_length st)
               [Raw (bowden_msg num str hub CUR_HUB (afc_bowden_length CUR_HUB) bowden_length)]
    | None => Raise (ValueError (default EmptyString (gcmd !! "LENGTH"))) st []
    end.
Proof.
  intros Hhub Hget.
  unfold cmd_SET_BOWDEN_LENGTH, cmd_SET_BOWDEN_LENGTH_body, run, bind, get.
  rewrite Hhub. unfold pure at 1. rewrite Hget.
  destruct (gcmd !! "LENGTH") as [lp|]; [|reflexivity].
  destruct (String.eqb (Py.strip lp) EmptyString); [reflexivity|].
  destruct (is_relative lp), (float lp); reflexivity.
Qed.

(** C10: with LENGTH left out or blank, the working length of the hub is
    set to the length of its configuration, whatever it was before. *)
Theorem set_bowden_length_blank_resets reg gcmd (st : State) hub CUR_HUB :
  gcmd !! "HUB" = Some hub ->
  hubs st !! hub = Some CUR_HUB ->
  (gcmd !! "LENGTH" = None
   \/ exists lp, gcmd !! "LENGTH" = Some lp /\ Py.strip lp = EmptyString) ->
  exists st',
    SET_BOWDEN_LENGTH reg gcmd st
    = Return st' [Raw (bowden_msg num str hub CUR_HUB (afc_bowden_length CUR_HUB)
                                  (config_bowden_length CUR_HUB))]
    /\ hubs st' !! hub
       = Some (mkHub (hub_name CUR_HUB) (config_bowden_length CUR_HUB)
                     (config_bowden_length CUR_HUB))
    /\ (forall other, hub <> other -> hubs st' !! other = hubs st !! other).
Proof.
  intros Hhub Hget Hlen.
  exists (set_afc_bowden_length hub CUR_HUB (config_bowden_length CUR_HUB) st).
  split; [|split].
  - rewrite (set_bowden_length_named reg gcmd st hub CUR_HUB Hhub Hget).
    destruct Hlen as [->|(lp & -> & Hblank)]; [reflexivity|].
    now rewrite Hblank.
  - apply lookup_set_afc_bowden_length.
  - intros other Hne. now apply lookup_set_afc_bowden_length_ne.
Qed.

(** C1: a signed LENGTH is added to the working length the hub has at the
    time of the call (the value the command prints as the previous length),
    and an unsigned LENGTH replaces it; the length of the configuration
    does not enter either result. *)
Theorem set_bowden_length_relative_to_working reg gcmd (st : State) hub CUR_HUB lp n :
  gcmd !! "HUB" = Some hub ->
  hubs st !! hub = Some CUR_HUB ->
  gcmd !! "LENGTH" = Some lp ->
  Py.strip lp <> EmptyString ->
  float lp = Some n ->
  let new := if is_relative lp then add (afc_bowden_length CUR_HUB) n else n in
  exists st',
    SET_BOWDEN_LENGTH reg gcmd st
    = Return st' [Raw (bowden_msg num str hub CUR_HUB (afc_bowden_length CUR_HUB) new)]
    /\ hubs st' !! hub = Some (mkHub (hub_name CUR_HUB) (config_bowden_length CUR_HUB) new)
    /\ (forall other, hub <> other -> hubs st' !! other = hubs st !! other).
Proof.
  intros Hhub Hget Hlen Hstrip Hfloat new.
  exists (set_afc_bowden_length hub CUR_HUB new st).
  split; [|split].
  - rewrite (set_bowden_length_named reg gcmd st hub CUR_HUB Hhub Hget), Hlen.
    apply String.eqb_neq in Hstrip. rewrite Hstrip, Hfloat.
    unfold new. now destruct (is_relative lp).
  - apply lookup_set_afc_bowden_length.
  - intros other Hne. now apply lookup_set_afc_bowden_length_ne.
Qed.

(** The branch of the handler for a command without HUB, as it is written
    (lines 497-502): it reads the attribute [current] of the [afcFunction]
    instance, which is never set, and ends in an [AttributeError] before it
    logs anything, whether a lane is loaded or not; no state is changed.
    The handler is registered for each hub with [register_mux_command] on
    the key HUB (line 45): the host hands it the commands that name a
    registered hub, and what becomes of a command without HUB is decided by
    the host, before the handler. *)
Theorem set_bowden_length_without_hub_raises reg gcmd (st : State) :
  gcmd !! "HUB" = None ->
  SET_BOWDEN_LENGTH reg gcmd st = Raise (AttributeError "afcFunction" "current") st [].
Proof.
  intros Hhub.
  unfold cmd_SET_BOWDEN_LENGTH, cmd_SET_BOWDEN_LENGTH_body, run, bind, get.
  rewrite Hhub. now destruct (current st).
Qed.

(** *** CALIBRATE_AFC *)

Lemma get_float_ok gcmd param default x (st : State) tr :
  float_value gcmd param default = Some x ->
  get_float num float Hardware gcmd param default st tr = Next x st tr.
Proof. intros H. unfold get_float. now rewrite H. Qed.

Lemma check_names_ok reg l u b (st : State) tr :
  valid_names reg l u b = true ->
  check_names reg l u b st tr = Next tt st tr.
Proof.
  unfold valid_names, check_names, bind. intros H.
  apply andb_prop in H as [H Hb]. apply andb_prop in H as [Hl Hu].
  destruct l as [l|].
  - apply orb_prop in Hl.
    destruct (String.eqb l "all"), (is_in l (lanes reg));
      try (destruct Hl; discriminate); simpl;
      (destruct u as [u|]; [rewrite Hu|]); simpl;
      (destruct b as [b|]; [rewrite Hb|]); reflexivity.
  - simpl. (destruct u as [u|]; [rewrite Hu|]); simpl;
      (destruct b as [b|]; [rewrite Hb|]); reflexivity.
Qed.

(** Once the parameters parse and the checks of lines 393-409 pass, the
    command is the distance calibrations followed by the Bowden one. *)
Lemma calibrate_afc_checked reg gcmd (st : State) dis tol :
  float_value gcmd "DISTANCE" (num_of_Z 25) = Some dis ->
  float_value gcmd "TOLERANCE" (num_of_Z 5) = Some tol ->
  (current st = None \/ gcmd !! "BOWDEN" = None) ->
  valid_names reg (gcmd !! "LANE") (gcmd !! "UNIT") (gcmd !! "BOWDEN") = true ->
  CALIBRATE_AFC reg gcmd st
  = run (bind (distances reg (gcmd !! "LANE") (gcmd !! "UNIT") tol EmptyString)
              (fun cal_msg =>
                 match gcmd !! "BOWDEN" with
                 | Some b => bowden_length reg b dis tol cal_msg
                 | None => pure tt
                 end)) st.
Proof.
  intros Hdis Htol Hfree Hnames.
  unfold cmd_CALIBRATE_AFC, cmd_CALIBRATE_AFC_body, run.
  unfold bind at 1. rewrite (get_float_ok _ _ _ _ _ _ Hdis).
  unfold bind at 1. rewrite (get_float_ok _ _ _ _ _ _ Htol).
  unfold bind at 1. unfold get at 1.
  assert (Hgo : match current st, gcmd !! "BOWDEN" with
                | Some _, Some _ => false
                | _, _ => true
                end = true).
  { destruct Hfree as [->| ->]; [reflexivity|]. now destruct (current st). }
  destruct (current st), (gcmd !! "BOWDEN"); try discriminate;
    unfold bind at 1; rewrite (check_names_ok _ _ _ _ _ _ Hnames); reflexivity.
Qed.

(** With a lane loaded, a Bowden calibration is turned down before anything
    else is looked at. *)
Lemma calibrate_afc_loaded reg gcmd (st : State) dis tol lane b :
  float_value gcmd "DISTANCE" (num_of_Z 25) = Some dis ->
  float_value gcmd "TOLERANCE" (num_of_Z 5) = Some tol ->
  current st = Some lane ->
  gcmd !! "BOWDEN" = Some b ->
  CALIBRATE_AFC reg gcmd st
  = Return st [Info "Tool must be unloaded to calibrate Bowden length"].
Proof.
  intros Hdis Htol Hcur Hb.
  unfold cmd_CALIBRATE_AFC, cmd_CALIBRATE_AFC_body, run.
  unfold bind at 1. rewrite (get_float_ok _ _ _ _ _ _ Hdis).
  unfold bind at 1. rewrite (get_float_ok _ _ _ _ _ _ Htol).
  unfold bind at 1. unfold get at 1. now rewrite Hcur, Hb.
Qed.

(** The loop goes through lanes whose passes succeed, records each call
    and collects each message. *)
Lemma calibrate_each_passes unit_of tol pre : forall rest cal_msg (st : State) tr st1 msgs,
  passes num Hardware calibrate_lane unit_of tol pre st = Some (st1, msgs) ->
  each unit_of tol (pre ++ rest) cal_msg st tr
  = each unit_of tol rest (fold_left String.append msgs cal_msg) st1
         (tr ++ map (fun l => Calibrate_lane (unit_of l) l tol) pre).
Proof.
  induction pre as [|l pre IH]; intros rest cal_msg st tr st1 msgs H; simpl in H.
  - injection H as <- <-. simpl. now rewrite app_nil_r.
  - destruct (calibrate_lane (unit_of l) l tol st) as [st' [[|] msg]|] eqn:Hl;
      try discriminate.
    destruct (passes num Hardware calibrate_lane unit_of tol pre st')
      as [[st'' msgs']|] eqn:Hp; [|discriminate].
    injection H as <- <-.
    change ((l :: pre) ++ rest) with (l :: (pre ++ rest)).
    cbn [calibrate_each]. unfold bind at 1, call at 1. rewrite Hl. cbn [fst snd negb].
    rewrite (IH rest _ st' _ st'' msgs' Hp). cbn [map fold_left].
    now rewrite <- app_assoc.
Qed.

(** A pass that reports a failure ends the command where the loop
    stands. *)
Lemma calibrate_each_fails unit_of tol bad post cal_msg (st1 : State) tr st2 m :
  calibrate_lane (unit_of bad) bad tol st1 = Done st2 (false, m) ->
  each unit_of tol (bad :: post) cal_msg st1 tr
  = Returned st2 (tr ++ [Calibrate_lane (unit_of bad) bad tol]).
Proof.
  intros H. cbn [calibrate_each]. unfold bind at 1, call at 1. now rewrite H.
Qed.

(** C3: with LANE=all, when the passes of the first lanes succeed and the
    pass of the next lane reports a failure, the command ends there: the
    calls made are those of the lanes up to and with the failing one, in
    order, and no later lane is tried.  The command returns nothing, and
    what it has logged is the line that announces the calibrations (and the
    name of the unit when UNIT is given): the messages of the lanes that
    succeeded were collected in a local variable and are dropped with it. *)
Theorem batch_stops_at_first_failure reg gcmd (st : State) dis tol
        prelude unit_of pre bad post st1 msgs st2 m :
  gcmd !! "LANE" = Some "all" ->
  float_value gcmd "DISTANCE" (num_of_Z 25) = Some dis ->
  float_value gcmd "TOLERANCE" (num_of_Z 5) = Some tol ->
  (current st = None \/ gcmd !! "BOWDEN" = None) ->
  valid_names reg (gcmd !! "LANE") (gcmd !! "UNIT") (gcmd !! "BOWDEN") = true ->
  batch_of reg (gcmd !! "UNIT") = Some (prelude, unit_of, pre ++ bad :: post) ->
  passes num Hardware calibrate_lane unit_of tol pre st = Some (st1, msgs) ->
  calibrate_lane (unit_of bad) bad tol st1 = Done st2 (false, m) ->
  CALIBRATE_AFC reg gcmd st
  = Return st2 (Info "Starting AFC distance Calibrations"
                  :: prelude ++ map (fun l => Calibrate_lane (unit_of l) l tol) (pre ++ [bad]))
  /\ reported (Info "Starting AFC distance Calibrations"
                 :: prelude ++ map (fun l => Calibrate_lane (unit_of l) l tol) (pre ++ [bad]))
     = "Starting AFC distance Calibrations" :: reported prelude.
Proof.
  intros Hall Hdis Htol Hfree Hnames Hbatch Hpre Hbad. split.
  - rewrite (calibrate_afc_checked reg gcmd st dis tol Hdis Htol Hfree Hnames).
    rewrite Hall. unfold run, calibrate_distances.
    unfold bind at 1. unfold bind at 1. unfold emit at 1.
    unfold batch_of in Hbatch.
    destruct (gcmd !! "UNIT") as [u|].
    + destruct (dict_get u (units reg)) as [CUR_UNIT|]; [|discriminate].
      injection Hbatch as <- <- Hl. cbn [String.eqb Ascii.eqb Bool.eqb].
      unfold bind at 1. unfold bind at 1. unfold emit at 1. rewrite Hl.
      rewrite (calibrate_each_passes _ _ _ _ _ _ _ _ _ Hpre).
      rewrite (calibrate_each_fails _ _ _ _ _ _ _ _ _ Hbad).
      rewrite map_app. reflexivity.
    + injection Hbatch as <- <- Hl. cbn [String.eqb Ascii.eqb Bool.eqb].
      unfold bind at 1. rewrite Hl.
      rewrite (calibrate_each_passes _ _ _ _ _ _ _ _ _ Hpre).
      rewrite (calibrate_each_fails _ _ _ _ _ _ _ _ _ Hbad).
      rewrite map_app. reflexivity.
  - unfold reported. cbn [flat_map app]. f_equal.
    rewrite flat_map_app.
    assert (Hcalls : forall ls : list Lane,
              flat_map (fun e : Event num =>
                          match e with
                          | Info m0 | Raw m0 | AFC_error m0 => [m0]
                          | _ => []
                          end)
                       (map (fun l => Calibrate_lane (unit_of l) l tol) ls) = []).
    { induction ls as [|l ls IHls]; [reflexivity|]. simpl. exact IHls. }
    rewrite Hcalls. apply app_nil_r.
Qed.

(** What the substitution changes: the start sensor of one extruder. *)
Lemma set_tool_start_extruder e v (st : State) :
  extruders (set_tool_start e v st) e
  = mkExtruder v (tool_end (extruders st e)) (lane_loaded (extruders st e)).
Proof. unfold set_tool_start. simpl. apply fn_lookup_insert. Qed.

Lemma set_tool_start_other e e' v (st : State) :
  e <> e' -> extruders (set_tool_start e v st) e' = extruders st e'.
Proof. intros Hne. unfold set_tool_start. simpl. now apply fn_lookup_insert_ne. Qed.

(** The Bowden step of a lane whose extruder has no sensor before the
    gears, one after them, and a buffer: the buffer stands in, the pass is
    made, and the start sensor is cleared again when the pass returns. *)
Lemma bowden_length_substitutes reg b CUR_LANE dis tol cal_msg (st1 : State) tr1
      pin buffer st2 result :
  dict_get b (lanes reg) = Some CUR_LANE ->
  tool_start (extruders st1 (extruder_obj CUR_LANE)) = None ->
  tool_end (extruders st1 (extruder_obj CUR_LANE)) = Some pin ->
  buffer_obj CUR_LANE = Some buffer ->
  calibrate_bowden (unit_obj CUR_LANE) CUR_LANE dis tol
                   (set_tool_start (extruder_obj CUR_LANE) (Some "buffer") st1)
  = Done st2 result ->
  bowden_length reg b dis tol cal_msg st1 tr1
  = Next tt (set_tool_start (extruder_obj CUR_LANE) None st2)
         (tr1 ++ [Info "Cannot run calibration using post extruder sensor, using buffer to calibrate bowden length";
                  Info "Starting AFC distance Calibrations";
                  Calibrate_bowden (unit_obj CUR_LANE) CUR_LANE dis tol;
                  Info "Bowden length calibration Done!"]).
Proof.
  intros Hlane Hstart Hend Hbuf Hpass.
  unfold calibrate_bowden_length. rewrite Hlane.
  unfold bind at 1, get at 1. rewrite Hstart, Hend, Hbuf.
  unfold bind, emit, put, call, get, pure. rewrite Hpass.
  now rewrite <- !app_assoc.
Qed.

(** When the unit handle raises instead, the exception leaves the command
    and the start sensor stays as the handle left it. *)
Lemma bowden_length_pass_raises reg b CUR_LANE dis tol cal_msg (st1 : State) tr1
      pin buffer st2 msg :
  dict_get b (lanes reg) = Some CUR_LANE ->
  tool_start (extruders st1 (extruder_obj CUR_LANE)) = None ->
  tool_end (extruders st1 (extruder_obj CUR_LANE)) = Some pin ->
  buffer_obj CUR_LANE = Some buffer ->
  calibrate_bowden (unit_obj CUR_LANE) CUR_LANE dis tol
                   (set_tool_start (extruder_obj CUR_LANE) (Some "buffer") st1)
  = Failed st2 msg ->
  bowden_length reg b dis tol cal_msg st1 tr1
  = Raised (HandleError msg) st2
           (tr1 ++ [Info "Cannot run calibration using post extruder sensor, using buffer to calibrate bowden length";
                    Info "Starting AFC distance Calibrations";
                    Calibrate_bowden (unit_obj CUR_LANE) CUR_LANE dis tol]).
Proof.
  intros Hlane Hstart Hend Hbuf Hpass.
  unfold calibrate_bowden_length. rewrite Hlane.
  unfold bind at 1, get at 1. rewrite Hstart, Hend, Hbuf.
  unfold bind, emit, put, call, get, pure. rewrite Hpass.
  now rewrite <- !app_assoc.
Qed.

(** In every other sensor configuration the Bowden step reports an error
    and returns, without a call to the unit. *)
Lemma bowden_length_refuses reg b CUR_LANE dis tol cal_msg (st1 : State) tr1 :
  dict_get b (lanes reg) = Some CUR_LANE ->
  match tool_start (extruders st1 (extruder_obj CUR_LANE)),
        tool_end (extruders st1 (extruder_obj CUR_LANE)),
        buffer_obj CUR_LANE with
  | None, Some _, Some _ => false
  | _, _, _ => true
  end = true ->
  bowden_length reg b dis tol cal_msg st1 tr1
  = Returned st1
      (tr1 ++ [AFC_error "Cannot calibrate with only post extruder sensor and no turtleneck buffer defined in config"]).
Proof.
  intros Hlane Hcfg.
  unfold calibrate_bowden_length. rewrite Hlane.
  unfold bind at 1, get at 1.
  destruct (tool_start (extruders st1 (extruder_obj CUR_LANE))),
           (tool_end (extruders st1 (extruder_obj CUR_LANE))),
           (buffer_obj CUR_LANE); try discriminate; reflexivity.
Qed.

(** The restore when the pass returns: a Bowden calibration of a lane
    whose extruder has no sensor before the gears, has one after them, and
    which has a buffer.  The pass is made on a state where the start sensor
    of that extruder is the buffer; when the pass returns, with whatever
    result, the command returns and the start sensor is None again.  A pass
    that raises is not covered: see [bowden_length_pass_raises].  The
    command itself changes nothing
    else: every other field of that extruder, every other extruder, the
    hubs, the loaded lane and the hardware are as the pass left them, and
    if the pass left the extruder as it got it, the extruder is again
    exactly as before the substitution. *)
Theorem bowden_calibration_restores_tool_start reg gcmd (st : State) dis tol b CUR_LANE
        cal_msg st1 tr1 pin buffer st2 result :
  float_value gcmd "DISTANCE" (num_of_Z 25) = Some dis ->
  float_value gcmd "TOLERANCE" (num_of_Z 5) = Some tol ->
  gcmd !! "BOWDEN" = Some b ->
  current st = None ->
  valid_names reg (gcmd !! "LANE") (gcmd !! "UNIT") (gcmd !! "BOWDEN") = true ->
  distances reg (gcmd !! "LANE") (gcmd !! "UNIT") tol EmptyString st [] = Next cal_msg st1 tr1 ->
  dict_get b (lanes reg) = Some CUR_LANE ->
  tool_start (extruders st1 (extruder_obj CUR_LANE)) = None ->
  tool_end (extruders st1 (extruder_obj CUR_LANE)) = Some pin ->
  buffer_obj CUR_LANE = Some buffer ->
  calibrate_bowden (unit_obj CUR_LANE) CUR_LANE dis tol
                   (set_tool_start (extruder_obj CUR_LANE) (Some "buffer") st1)
  = Done st2 result ->
  exists st',
    CALIBRATE_AFC reg gcmd st
    = Return st'
        (tr1 ++ [Info "Cannot run calibration using post extruder sensor, using buffer to calibrate bowden length";
                 Info "Starting AFC distance Calibrations";
                 Calibrate_bowden (unit_obj CUR_LANE) CUR_LANE dis tol;
                 Info "Bowden length calibration Done!"])
    /\ extruders (set_tool_start (extruder_obj CUR_LANE) (Some "buffer") st1)
                 (extruder_obj CUR_LANE)
       = mkExtruder (Some "buffer") (Some pin)
                    (lane_loaded (extruders st1 (extruder_obj CUR_LANE)))
    /\ extruders st' (extruder_obj CUR_LANE)
       = mkExtruder None (tool_end (extruders st2 (extruder_obj CUR_LANE)))
                    (lane_loaded (extruders st2 (extruder_obj CUR_LANE)))
    /\ (forall e, extruder_obj CUR_LANE <> e -> extruders st' e = extruders st2 e)
    /\ hubs st' = hubs st2 /\ current st' = current st2 /\ hardware st' = hardware st2
    /\ (extruders st2 (extruder_obj CUR_LANE)
        = extruders (set_tool_start (extruder_obj CUR_LANE) (Some "buffer") st1)
                    (extruder_obj CUR_LANE) ->
        extruders st' (extruder_obj CUR_LANE) = extruders st1 (extruder_obj CUR_LANE)).
Proof.
  intros Hdis Htol Hb Hcur Hnames Hdist Hlane Hstart Hend Hbuf Hpass.
  exists (set_tool_start (extruder_obj CUR_LANE) None st2).
  split; [|split; [|split; [|split; [|split; [|split; [|split]]]]]].
  - rewrite (calibrate_afc_checked reg gcmd st dis tol Hdis Htol (or_introl Hcur) Hnames).
    unfold run. unfold bind at 1. rewrite Hdist, Hb.
    now rewrite (bowden_length_substitutes reg b CUR_LANE dis tol cal_msg st1 tr1
                   pin buffer st2 result Hlane Hstart Hend Hbuf Hpass).
  - now rewrite set_tool_start_extruder, Hend.
  - apply set_tool_start_extruder.
  - intros e Hne. now apply set_tool_start_other.
  - reflexivity.
  - reflexivity.
  - reflexivity.
  - intros Hsame. rewrite set_tool_start_extruder, Hsame, set_tool_start_extruder.
    simpl. rewrite <- Hstart. now destruct (extruders st1 (extruder_obj CUR_LANE)).
Qed.

End CommandFacts.

(** ** The commands on the bench *)

Lemma set_bowden_length_blank_resets_witness :
  Bench.working (Bench.SET_BOWDEN_LENGTH (Bench.params [("HUB", "hub1"); ("LENGTH", "  ")])
                                         Bench.st0)
  = Some 200%Z.
Proof.
  destruct (set_bowden_length_blank_resets Bench.float Z.add Bench.str (Hardware := nat)
              Bench.reg (Bench.params [("HUB", "hub1"); ("LENGTH", "  ")]) Bench.st0
              "hub1" (mkHub "hub1" 200%Z 205%Z))
    as (st' & Hrun & Hhub & _).
  - reflexivity.
  - reflexivity.
  - right. exists "  ". split; reflexivity.
  - unfold Bench.SET_BOWDEN_LENGTH. rewrite Hrun. unfold Bench.working.
    rewrite Hhub. reflexivity.
Defined.

Lemma set_bowden_length_relative_to_working_witness :
  Bench.working (Bench.SET_BOWDEN_LENGTH (Bench.params [("HUB", "hub1"); ("LENGTH", "-10")])
                                         Bench.st0)
  = Some 195%Z.
Proof.
  destruct (set_bowden_length_relative_to_working Bench.float Z.add Bench.str (Hardware := nat)
              Bench.reg (Bench.params [("HUB", "hub1"); ("LENGTH", "-10")]) Bench.st0
              "hub1" (mkHub "hub1" 200%Z 205%Z) "-10" (-10)%Z)
    as (st' & Hrun & Hhub & _).
  - reflexivity.
  - reflexivity.
  - reflexivity.
  - vm_compute. discriminate.
  - reflexivity.
  - unfold Bench.SET_BOWDEN_LENGTH. rewrite Hrun. unfold Bench.working.
    rewrite Hhub. reflexivity.
Defined.

(** C1, as stated, fails: the hub has 200 in its configuration and 205 as
    its working length; LENGTH=+10 gives 215, not 210. *)
Lemma relative_length_not_from_configuration :
  config_bowden_length <$> (hubs Bench.st0 !! "hub1") = Some 200%Z
  /\ afc_bowden_length <$> (hubs Bench.st0 !! "hub1") = Some 205%Z
  /\ Bench.working (Bench.SET_BOWDEN_LENGTH (Bench.params [("HUB", "hub1"); ("LENGTH", "+10")])
                                            Bench.st0)
     = Some 215%Z
  /\ Bench.working (Bench.SET_BOWDEN_LENGTH (Bench.params [("HUB", "hub1"); ("LENGTH", "+10")])
                                            Bench.st0)
     <> Some (200 + 10)%Z.
Proof. repeat split. vm_compute. discriminate. Qed.

Lemma set_bowden_length_without_hub_raises_witness :
  current Bench.st0 = None
  /\ Bench.SET_BOWDEN_LENGTH (Bench.params [("LENGTH", "150")]) Bench.st0
     = Raise (AttributeError "afcFunction" "current") Bench.st0 [].
Proof.
  split; [reflexivity|].
  apply (set_bowden_length_without_hub_raises Bench.float Z.add Bench.str (Hardware := nat)).
  reflexivity.
Defined.

(** C2: the extruder of lane4 has a sensor before the gears, and the
    Bowden calibration of lane4 is refused all the same: the command reports
    that it cannot calibrate and returns without a call to the unit. *)
Theorem bowden_calibration_refused_with_start_sensor :
  tool_start (extruders Bench.st0 (extruder_obj Bench.lane4)) = Some "PG11"
  /\ Bench.CALIBRATE_AFC (Bench.params [("BOWDEN", "lane4")]) Bench.st0
     = Return Bench.st0
         [Info "No lanes selected to calibrate dist_hub";
          AFC_error "Cannot calibrate with only post extruder sensor and no turtleneck buffer defined in config"]
  /\ filter is_hardware_call
            (Bench.trace (Bench.CALIBRATE_AFC (Bench.params [("BOWDEN", "lane4")]) Bench.st0))
     = [].
Proof. repeat split. Qed.

Lemma batch_stops_at_first_failure_witness :
  Bench.CALIBRATE_AFC (Bench.params [("LANE", "all")]) Bench.st0
  = Return (Bench.tick (Bench.tick (Bench.tick Bench.st0)))
      [Info "Starting AFC distance Calibrations";
       Calibrate_lane "Turtle_1" Bench.lane1 5%Z;
       Calibrate_lane "Turtle_1" Bench.lane2 5%Z;
       Calibrate_lane "Turtle_1" Bench.lane3 5%Z].
Proof.
  apply (batch_stops_at_first_failure id Bench.float Bench.str
           Bench.calibrate_lane Bench.calibrate_bowden
           Bench.reg (Bench.params [("LANE", "all")]) Bench.st0 25%Z 5%Z
           [] unit_obj [Bench.lane1; Bench.lane2] Bench.lane3 [Bench.lane4]
           (Bench.tick (Bench.tick Bench.st0))
           [Py.nl +:+ "lane1 dist_hub calibrated"; Py.nl +:+ "lane2 dist_hub calibrated"]
           (Bench.tick (Bench.tick (Bench.tick Bench.st0)))
           (Py.nl +:+ "lane3 dist_hub calibrated")).
  - reflexivity.
  - reflexivity.
  - reflexivity.
  - left. reflexivity.
  - reflexivity.
  - reflexivity.
  - reflexivity.
  - reflexivity.
Defined.

(** C3, as stated, fails: lane1 and lane2 pass and lane3 fails; the command
    stops there, and nothing it returns or logs holds the messages of lane1
    and lane2. *)
Lemma batch_aggregate_not_reported :
  passes Z nat Bench.calibrate_lane unit_obj 5%Z [Bench.lane1; Bench.lane2] Bench.st0
  = Some (Bench.tick (Bench.tick Bench.st0),
          [Py.nl +:+ "lane1 dist_hub calibrated"; Py.nl +:+ "lane2 dist_hub calibrated"])
  /\ Bench.calibrate_lane "Turtle_1" Bench.lane3 5%Z (Bench.tick (Bench.tick Bench.st0))
     = Done (Bench.tick (Bench.tick (Bench.tick Bench.st0)))
            (false, Py.nl +:+ "lane3 dist_hub calibrated")
  /\ reported (Bench.trace (Bench.CALIBRATE_AFC (Bench.params [("LANE", "all")]) Bench.st0))
     = ["Starting AFC distance Calibrations"]
  /\ ~ (exists msg,
          In msg (reported (Bench.trace (Bench.CALIBRATE_AFC (Bench.params [("LANE", "all")])
                                                             Bench.st0)))
          /\ Py.contains msg "lane1 dist_hub calibrated" = true
          /\ Py.contains msg "lane2 dist_hub calibrated" = true).
Proof.
  repeat split.
  intros (msg & Hin & H1 & _).
  assert (Hrep : reported (Bench.trace (Bench.CALIBRATE_AFC (Bench.params [("LANE", "all")])
                                                            Bench.st0))
                 = ["Starting AFC distance Calibrations"]) by reflexivity.
  rewrite Hrep in Hin. destruct Hin as [<-|[]].
  vm_compute in H1. discriminate.
Qed.

Lemma bowden_calibration_restores_tool_start_witness :
  match Bench.CALIBRATE_AFC (Bench.params [("BOWDEN", "lane1")]) Bench.st0 with
  | Return st' _ => extruders st' "extruder" = Bench.sensors "extruder"
  | Raise _ _ _ => False
  end.
Proof.
  destruct (bowden_calibration_restores_tool_start id Bench.float Bench.str
              Bench.calibrate_lane Bench.calibrate_bowden
              Bench.reg (Bench.params [("BOWDEN", "lane1")]) Bench.st0 25%Z 5%Z
              "lane1" Bench.lane1 EmptyString Bench.st0
              [Info "No lanes selected to calibrate dist_hub"] "PG13" "TN"
              (Bench.tick (set_tool_start "extruder" (Some "buffer") Bench.st0))
              (false, "Failed to reach hub"))
    as (st' & Hrun & _ & _ & _ & _ & _ & _ & Hsame).
  - reflexivity.
  - reflexivity.
  - reflexivity.
  - reflexivity.
  - reflexivity.
  - reflexivity.
  - reflexivity.
  - reflexivity.
  - reflexivity.
  - reflexivity.
  - reflexivity.
  - unfold Bench.CALIBRATE_AFC. rewrite Hrun. apply Hsame. reflexivity.
Defined.

(** C8, where the pass raises.  The extruder of lane1 has no sensor before
    the gears, one after them, and lane1 has a buffer; nothing is loaded.
    With a unit whose Bowden pass raises, the command ends in that exception
    after the substitution of line 457 and before the restore of line 471,
    which is in no [finally]: the start sensor, None before the command, is
    left as the buffer, and nothing else of the state has changed.  With a
    unit whose pass returns, here with a failure, the same command leaves
    the start sensor None. *)
Theorem bowden_pass_raising_leaves_substitution :
  Bench.sensors "extruder" = mkExtruder None (Some "PG13") None
  /\ buffer_obj Bench.lane1 = Some "TN"
  /\ current Bench.st0 = None
  /\ cmd_CALIBRATE_AFC Z id Bench.float Bench.str nat Bench.calibrate_lane
                        Yard.calibrate_bowden_raises Bench.reg
                        (Bench.params [("BOWDEN", "lane1")]) Bench.st0
     = Raise (HandleError "Timer too close")
             (set_tool_start "extruder" (Some "buffer") Bench.st0)
             [Info "No lanes selected to calibrate dist_hub";
              Info "Cannot run calibration using post extruder sensor, using buffer to calibrate bowden length";
              Info "Starting AFC distance Calibrations";
              Calibrate_bowden "Turtle_1" Bench.lane1 25%Z 5%Z]
  /\ extruders (set_tool_start "extruder" (Some "buffer") Bench.st0) "extruder"
     = mkExtruder (Some "buffer") (Some "PG13") None
  /\ match Bench.CALIBRATE_AFC (Bench.params [("BOWDEN", "lane1")]) Bench.st0 with
     | Return st' _ => extruders st' "extruder" = mkExtruder None (Some "PG13") None
     | Raise _ _ _ => False
     end.
Proof. repeat split. Qed.

(** ** More about ConfigRewrite *)

Lemma append_assoc (a b c : string) : (a +:+ b) +:+ c = a +:+ (b +:+ c).
Proof.
  induction a as [|x a IH]; [reflexivity|].
  rewrite !append_cons. now rewrite IH.
Qed.

Lemma append_empty_r (a : string) : a +:+ EmptyString = a.
Proof. induction a as [|x a IH]; [reflexivity|]. rewrite append_cons. now rewrite IH. Qed.


(** Reading a text line by line and putting the lines together again gives
    the text back. *)
Lemma join_readlines (s : string) : join (Py.readlines s) = s.
Proof.
  induction s as [|a s IH]; [reflexivity|].
  simpl. destruct (Ascii.eqb a Py.LF).
  - simpl. now rewrite IH.
  - destruct (Py.readlines s) as [|l ls]; simpl in *.
    + now rewrite <- IH.
    + rewrite append_cons. now rewrite IH.
Qed.

Section ConfigStoreMore.

Variable re_compiles : string -> bool.
Variable re_match : string -> string -> bool.

(** Outside the section, lines that do not match the header are copied. *)
Lemma scan_lines_outside pattern rawkey rawvalue lines : forall st,
  sectionfound st = false ->
  existsb (re_match pattern) lines = false ->
  fold_left (scan_line re_match pattern rawkey rawvalue) lines st
  = mkScan false (taskdone st) (dataout st +:+ join lines).
Proof.
  induction lines as [|line lines IH]; intros st Hsf H.
  - simpl. rewrite append_empty_r. destruct st; simpl in *; now subst.
  - simpl in H. apply orb_false_elim in H as [Hline Hrest].
    simpl.
    assert (Hstep : scan_line re_match pattern rawkey rawvalue st line
                    = mkScan false (taskdone st) (dataout st +:+ line)).
    { unfold scan_line, track_section. now rewrite Hsf, Hline. }
    rewrite Hstep, IH by (try reflexivity; assumption). simpl. now rewrite append_assoc.
Qed.



(** A scanned file without a header line leaves the scan as it found it,
    when it was outside the section. *)
Lemma scan_file_without_section rawsection rawkey rawvalue f :
  negb (scanned f && has_section re_match rawsection (snd f)) = true ->
  forall content, snd f = File content ->
  Py.endswith (fst f) ".cfg" = true ->
  scan_file re_match (section_pattern rawsection) rawkey rawvalue false false content
  = mkScan false false content.
Proof.
  intros H content Hc Hcfg. unfold scanned in H. rewrite Hc, Hcfg in H.
  simpl in H. apply negb_true_iff in H.
  unfold scan_file. rewrite scan_lines_outside by (try reflexivity; assumption).
  simpl. now rewrite join_readlines.
Qed.

(** X2: the first file that is scanned and has the section decides the
    call.  When the files listed before it that are scanned have no line that
    matches the header, and the scan of this file finds the key in the
    section, this file is the one written, with the text the scan produced;
    the entries before and after it are left as they are and the call logs
    that the key was saved. *)
Theorem config_rewrite_writes_first_section_file rawsection rawkey rawvalue msg
        earlier filename content later :
  forallb (fun f => negb (scanned f && has_section re_match rawsection (snd f))) earlier = true ->
  Py.endswith filename ".cfg" = true ->
  taskdone (scan_file re_match (section_pattern rawsection) rawkey rawvalue
                      false false content) = true ->
  ConfigRewrite re_match rawsection rawkey rawvalue msg
                (earlier ++ (filename, File content) :: later)
  = mkRewritten
      (earlier
       ++ (filename,
           File (dataout (scan_file re_match (section_pattern rawsection) rawkey rawvalue
                                    false false content))) :: later)
      (msg +:+ saved_msg rawsection rawkey rawvalue).
Proof.
  intros Hearlier Hcfg Hdone. unfold ConfigRewrite.
  induction earlier as [|[name entry] earlier IH].
  - simpl. now rewrite Hcfg, Hdone.
  - simpl in Hearlier. apply andb_prop in Hearlier as [Hhere Hrest].
    specialize (IH Hrest). simpl.
    destruct entry as [text|]; [|now rewrite IH].
    destruct (Py.endswith name ".cfg") eqn:Hname; [|now rewrite IH].
    rewrite (scan_file_without_section rawsection rawkey rawvalue (name, File text)
               Hhere text eq_refl Hname).
    simpl. now rewrite IH.
Qed.

(** From line 64 on: when no scanned file has a line that starts with the
    key, or no scanned file has a line that matches the section header, the
    loop writes nothing and the message is that the key was not found. *)
Lemma scan_nothing_to_rewrite rawsection rawkey rawvalue msg dir :
  forallb (fun f => negb (scanned f && has_key rawkey (snd f))) dir = true
  \/ forallb (fun f => negb (scanned f && has_section re_match rawsection (snd f))) dir = true ->
  ConfigRewrite re_match rawsection rawkey rawvalue msg dir
  = mkRewritten dir (msg +:+ not_found_msg rawsection rawkey).
Proof.
  unfold ConfigRewrite. intros [Hkey|Hsec].
  - generalize false at 1. induction dir as [|[filename entry] rest IH]; intros sf;
      [reflexivity|].
    simpl in Hkey. apply andb_prop in Hkey as [Hhere Hrest]. simpl.
    destruct entry as [content|]; [|now rewrite (IH Hrest)].
    destruct (Py.endswith filename ".cfg") eqn:Hcfg; [|now rewrite (IH Hrest)].
    unfold scanned in Hhere. simpl in Hhere. rewrite Hcfg in Hhere. simpl in Hhere.
    apply negb_true_iff in Hhere.
    unfold scan_file. rewrite scan_lines_no_key by exact Hhere.
    simpl. now rewrite (IH Hrest).
  - induction dir as [|[filename entry] rest IH]; [reflexivity|].
    simpl in Hsec. apply andb_prop in Hsec as [Hhere Hrest]. simpl.
    destruct entry as [content|]; [|now rewrite (IH Hrest)].
    destruct (Py.endswith filename ".cfg") eqn:Hcfg; [|now rewrite (IH Hrest)].
    rewrite (scan_file_without_section rawsection rawkey rawvalue (filename, File content)
               Hhere content eq_refl Hcfg).
    simpl. now rewrite (IH Hrest).
Qed.

(** A section name that line 63 cannot compile ends the call there, with
    the directory as it was and nothing logged. *)
Lemma config_rewrite_re_error rawsection rawkey rawvalue msg dir :
  re_compiles (section_pattern rawsection) = false ->
  ConfigRewrite_call re_compiles re_match rawsection rawkey rawvalue msg dir = ReError.
Proof. intros H. unfold ConfigRewrite_call. now rewrite H. Qed.

(** X3: for a section name whose pattern compiles at line 63, when no
    scanned file has a line that starts with the key, or no scanned file has
    a line that matches the section header, the call runs to its end, writes
    nothing and logs that the key was not found, whatever the other entries
    of the directory hold. *)
Theorem config_rewrite_nothing_to_rewrite rawsection rawkey rawvalue msg dir :
  re_compiles (section_pattern rawsection) = true ->
  forallb (fun f => negb (scanned f && has_key rawkey (snd f))) dir = true
  \/ forallb (fun f => negb (scanned f && has_section re_match rawsection (snd f))) dir = true ->
  ConfigRewrite_call re_compiles re_match rawsection rawkey rawvalue msg dir
  = Ran (mkRewritten dir (msg +:+ not_found_msg rawsection rawkey)).
Proof.
  intros Hre Hnone. unfold ConfigRewrite_call. rewrite Hre.
  now rewrite (scan_nothing_to_rewrite rawsection rawkey rawvalue msg dir Hnone).
Qed.

(** An entry that is not scanned has no part in the loop. *)
Lemma scan_directory_ignores rawsection rawkey rawvalue msg f later :
  scanned f = false ->
  forall earlier sf td,
  scan_directory re_match rawsection rawkey rawvalue msg sf td (earlier ++ f :: later)
  = mkRewritten
      (take (length earlier)
            (files (scan_directory re_match rawsection rawkey rawvalue msg sf td
                                   (earlier ++ later)))
       ++ f :: drop (length earlier)
                    (files (scan_directory re_match rawsection rawkey rawvalue msg sf td
                                           (earlier ++ later))))
      (logged (scan_directory re_match rawsection rawkey rawvalue msg sf td
                              (earlier ++ later))).
Proof.
  intros Hf. induction earlier as [|[name entry] earlier IH]; intros sf td.
  - destruct f as [fname fentry]. unfold scanned in Hf. simpl in *.
    destruct fentry as [text|]; [rewrite Hf|]; reflexivity.
  - simpl.
    destruct entry as [text|]; [|now rewrite IH].
    destruct (Py.endswith name ".cfg"); [|now rewrite IH].
    destruct (taskdone (scan_file re_match (section_pattern rawsection) rawkey rawvalue
                                  sf td text)).
    + simpl. now rewrite take_app_length, drop_app_length.
    + now rewrite IH.
Qed.

(** X4: entries that are not regular files, and files whose name does not
    end in .cfg, are neither read nor written: with such an entry in the
    listing the call logs what it logs without it, and leaves the directory
    it leaves without it, with the entry put back in its place. *)
Theorem config_rewrite_ignores_other_entries rawsection rawkey rawvalue msg earlier f later :
  scanned f = false ->
  ConfigRewrite re_match rawsection rawkey rawvalue msg (earlier ++ f :: later)
  = mkRewritten
      (take (length earlier)
            (files (ConfigRewrite re_match rawsection rawkey rawvalue msg (earlier ++ later)))
       ++ f :: drop (length earlier)
                    (files (ConfigRewrite re_match rawsection rawkey rawvalue msg
                                          (earlier ++ later))))
      (logged (ConfigRewrite re_match rawsection rawkey rawvalue msg (earlier ++ later))).
Proof. intros Hf. unfold ConfigRewrite. now apply scan_directory_ignores. Qed.

(** X5: whatever the file and whatever state the scan is in, the text a
    scan produces is made of one piece for each line read, in order: the line
    itself, or, only for a line that starts with the key, its replacement. *)
Theorem scan_file_line_by_line pattern rawkey rawvalue sf td content :
  exists pieces,
    dataout (scan_file re_match pattern rawkey rawvalue sf td content) = join pieces
    /\ Forall2 (fun line piece =>
                  piece = line
                  \/ (Py.startswith line rawkey = true
                      /\ piece = rewrite_line rawkey rawvalue line))
               (Py.readlines content) pieces.
Proof.
  unfold scan_file.
  assert (H : forall lines st,
             exists pieces,
               dataout (fold_left (scan_line re_match pattern rawkey rawvalue) lines st)
               = dataout st +:+ join pieces
               /\ Forall2 (fun line piece =>
                             piece = line
                             \/ (Py.startswith line rawkey = true
                                 /\ piece = rewrite_line rawkey rawvalue line))
                          lines pieces).
  { induction lines as [|line lines IH]; intros st.
    - exists []. simpl. rewrite append_empty_r. split; [reflexivity|constructor].
    - destruct (IH (scan_line re_match pattern rawkey rawvalue st line))
        as (pieces & Hout & Hall).
      assert (Hstep : dataout (scan_line re_match pattern rawkey rawvalue st line)
                      = dataout st +:+ line
                      \/ (Py.startswith line rawkey = true
                          /\ dataout (scan_line re_match pattern rawkey rawvalue st line)
                             = dataout st +:+ rewrite_line rawkey rawvalue line)).
      { unfold scan_line.
        destruct (track_section re_match pattern (sectionfound st) line),
                 (Py.startswith line rawkey); simpl; auto. }
      destruct Hstep as [Hcopy|[Hk Hrew]].
      + exists (line :: pieces). split.
        * simpl. rewrite Hout, Hcopy. now rewrite append_assoc.
        * constructor; [now left | exact Hall].
      + exists (rewrite_line rawkey rawvalue line :: pieces). split.
        * simpl. rewrite Hout, Hrew. now rewrite append_assoc.
        * constructor; [right; now split | exact Hall]. }
  destruct (H (Py.readlines content) (mkScan sf td EmptyString)) as (pieces & Hout & Hall).
  exists pieces. split; [exact Hout | exact Hall].
Qed.

End ConfigStoreMore.

(** *** The replacement of a key line *)

Lemma index_append_some c s t i :
  Py.index c s = Some i -> Py.index c (s +:+ t) = Some i.
Proof.
  revert i. induction s as [|a s IH]; intros i H; [discriminate|].
  rewrite append_cons. simpl in *.
  destruct (Ascii.eqb a c); [exact H|].
  destruct (Py.index c s) as [j|]; [|discriminate].
  now rewrite (IH j eq_refl).
Qed.

Lemma substring_skip (a b : string) n :
  substring (String.length a) n (a +:+ b) = substring 0 n b.
Proof. induction a as [|x a IH]; [reflexivity|]. rewrite append_cons. simpl. exact IH. Qed.

Lemma substring_prefix (b r : string) :
  substring 0 (String.length b) (b +:+ r) = b.
Proof.
  induction b as [|x b IH]; [now destruct r|].
  rewrite append_cons. simpl. now rewrite IH.
Qed.

(** A key line made of a part without #, a comment, and one last character:
    the comment is written back without that last character. *)
Lemma rewrite_line_shape rawkey rawvalue body text last :
  Py.index "#" body = None ->
  rewrite_line rawkey rawvalue (body +:+ String "#" (text +:+ String last EmptyString))
  = Py.ljust (rawkey +:+ ": " +:+ rawvalue) (Z.of_nat (String.length body) - 1)
    +:+ " " +:+ String "#" text +:+ Py.nl.
Proof.
  intros Hbody. unfold rewrite_line.
  rewrite index_append_none by exact Hbody. rewrite index_head.
  cbn [fmap option_fmap option_map]. rewrite Nat.add_0_r.
  unfold Py.slice_to_last.
  replace (String.length (body +:+ String "#" (text +:+ String last EmptyString))
           - 1 - String.length body)
    with (String.length (String "#" text)).
  2:{ rewrite length_append. simpl. rewrite length_append. simpl. lia. }
  rewrite substring_skip.
  change (String "#" (text +:+ String last EmptyString))
    with (String "#" text +:+ String last EmptyString).
  now rewrite substring_prefix.
Qed.

(** X6: the comment of a key line is kept as it is.  For a key line made
    of a part without #, then a comment, then the line feed, the rewritten
    line is the new key and value, padded, one space, and the same comment
    text up to the line feed.  When the key line is the last line of a file
    that does not end in a line feed, the last character of its comment is
    dropped, since the code cuts one character for the line feed. *)
Theorem rewrite_line_keeps_comment rawkey rawvalue body text :
  Py.index "#" body = None ->
  rewrite_line rawkey rawvalue (body +:+ String "#" text +:+ Py.nl)
  = Py.ljust (rawkey +:+ ": " +:+ rawvalue) (Z.of_nat (String.length body) - 1)
    +:+ " " +:+ String "#" text +:+ Py.nl
  /\ forall last,
       rewrite_line rawkey rawvalue (body +:+ String "#" (text +:+ String last EmptyString))
       = Py.ljust (rawkey +:+ ": " +:+ rawvalue) (Z.of_nat (String.length body) - 1)
         +:+ " " +:+ String "#" text +:+ Py.nl.
Proof.
  intros Hbody. split.
  - rewrite <- (rewrite_line_shape rawkey rawvalue body text Py.LF Hbody).
    reflexivity.
  - intros last. now apply rewrite_line_shape.
Qed.

Lemma rewrite_line_keeps_comment_witness :
  rewrite_line "afc_bowden_length" "850" Bench.commented_line
  = "afc_bowden_length: 850   # measured" +:+ Py.nl.
Proof.
  destruct (rewrite_line_keeps_comment "afc_bowden_length" "850"
              "afc_bowden_length: 900   " " measured") as [Hline _]; [reflexivity|].
  exact Hline.
Defined.

(** A line without # is replaced by the key, the value, one space and the
    line feed, and this line has no # either. *)
Lemma rewrite_line_plain rawkey rawvalue line :
  Py.index "#" line = None ->
  rewrite_line rawkey rawvalue line
  = Py.ljust (rawkey +:+ ": " +:+ rawvalue) (-1) +:+ " " +:+ EmptyString +:+ Py.nl.
Proof. intros H. unfold rewrite_line. now rewrite H. Qed.

(** X7: writing the same value twice changes nothing the second time.  For
    a key and a value without #, and a key line whose #, if it has one, is
    not its last character, rewriting the rewritten line gives the same
    line: the comment does not drift. *)
Theorem rewrite_line_idempotent rawkey rawvalue line :
  Py.index "#" rawkey = None ->
  Py.index "#" rawvalue = None ->
  (forall c, Py.index "#" line = Some c -> S c < String.length line) ->
  rewrite_line rawkey rawvalue (rewrite_line rawkey rawvalue line)
  = rewrite_line rawkey rawvalue line.
Proof.
  intros Hk Hv Hlast.
  assert (Hkv : Py.index "#" (rawkey +:+ ": " +:+ rawvalue) = None).
  { apply index_none_append; [exact Hk|]. now apply index_none_append. }
  destruct (Py.index "#" line) as [c|] eqn:Hc.
  - specialize (Hlast c eq_refl).
    destruct (substring_at_index "#" line c (String.length line - 1 - c - 1) Hc) as [r Hr].
    replace (S (String.length line - 1 - c - 1)) with (String.length line - 1 - c) in Hr by lia.
    assert (Hfirst : rewrite_line rawkey rawvalue line
                     = (Py.ljust (rawkey +:+ ": " +:+ rawvalue) (Z.of_nat c - 1) +:+ " ")
                       +:+ String "#" (r +:+ String Py.LF EmptyString)).
    { unfold rewrite_line. rewrite Hc. unfold Py.slice_to_last. rewrite Hr.
      rewrite append_assoc. reflexivity. }
    rewrite Hfirst at 1. rewrite rewrite_line_shape.
    2:{ apply index_none_append; [|reflexivity]. apply index_ljust; [discriminate|exact Hkv]. }
    rewrite Hfirst. rewrite append_assoc. f_equal.
    rewrite length_append, length_ljust. change (String.length " ") with 1.
    unfold Py.ljust. f_equal. f_equal.
    generalize (String.length (rawkey +:+ ": " +:+ rawvalue)). intros n.
    destruct (Z_le_gt_dec (Z.of_nat c - 1) (Z.of_nat n)); lia.
  - rewrite (rewrite_line_plain rawkey rawvalue line Hc).
    apply rewrite_line_plain.
    apply index_none_append; [apply index_ljust; [discriminate|exact Hkv]|].
    reflexivity.
Qed.

Lemma rewrite_line_idempotent_witness :
  rewrite_line "afc_bowden_length" "1234.5678"
               (rewrite_line "afc_bowden_length" "1234.5678" Bench.commented_line)
  = rewrite_line "afc_bowden_length" "1234.5678" Bench.commented_line.
Proof.
  apply rewrite_line_idempotent; [reflexivity | reflexivity |].
  intros c Hc. vm_compute in Hc. injection Hc as <-. vm_compute. lia.
Defined.

(** ** More about the commands *)

Section CommandMore.

Context {num : Type} (num_of_Z : Z -> num) (float : string -> option num)
        (add : num -> num -> num) (str : num -> string) {Hardware : Type}
        (calibrate_lane : string -> Lane -> num -> State num Hardware
                          -> Handle num Hardware (bool * string))
        (calibrate_bowden : string -> Lane -> num -> num -> State num Hardware
                            -> Handle num Hardware (bool * string)).

Local Abbreviation State := (State num Hardware).
Local Abbreviation SET_BOWDEN_LENGTH := (cmd_SET_BOWDEN_LENGTH num float add str Hardware).
Local Abbreviation CALIBRATE_AFC :=
  (cmd_CALIBRATE_AFC num num_of_Z float str Hardware calibrate_lane calibrate_bowden).
Local Abbreviation distances :=
  (calibrate_distances num str Hardware calibrate_lane).
Local Abbreviation bowden_length :=
  (calibrate_bowden_length num str Hardware calibrate_bowden).
Local Abbreviation each := (calibrate_each num Hardware calibrate_lane).
Local Abbreviation float_value := (get_float_value num float).

(** *** SET_BOWDEN_LENGTH *)

(** The two ways the command ends: it raises before it has changed or
    logged anything, or it returns with the working length of one known hub
    set and one message. *)
Lemma set_bowden_length_cases reg gcmd (st : State) :
  (exists e, SET_BOWDEN_LENGTH reg gcmd st = Raise e st [])
  \/ (exists hub CUR_HUB v,
        gcmd !! "HUB" = Some hub
        /\ hubs st !! hub = Some CUR_HUB
        /\ SET_BOWDEN_LENGTH reg gcmd st
           = Return (set_afc_bowden_length hub CUR_HUB v st)
                    [Raw (bowden_msg num str hub CUR_HUB (afc_bowden_length CUR_HUB) v)]).
Proof.
  destruct (gcmd !! "HUB") as [hub|] eqn:Hhub.
  - destruct (hubs st !! hub) as [CUR_HUB|] eqn:Hget.
    + rewrite (set_bowden_length_named float add str reg gcmd st hub CUR_HUB Hhub Hget).
      match goal with
      | |- context [match ?o with Some _ => _ | None => _ end] => destruct o as [v|]
      end.
      * right. exists hub, CUR_HUB, v. auto.
      * left. eauto.
    + left. exists (KeyError hub).
      unfold cmd_SET_BOWDEN_LENGTH, cmd_SET_BOWDEN_LENGTH_body, run, bind, get.
      rewrite Hhub. unfold pure at 1. now rewrite Hget.
  - left. exists (AttributeError "afcFunction" "current").
    unfold cmd_SET_BOWDEN_LENGTH, cmd_SET_BOWDEN_LENGTH_body, run, bind, get.
    rewrite Hhub. now destruct (current st).
Qed.

(** X8: a call that raises (no hub given, a hub that is not known, a
    LENGTH that is not a number) has changed no state and logged nothing:
    the working length is never left half set. *)
Theorem set_bowden_length_raise_changes_nothing reg gcmd (st : State) e st' tr :
  SET_BOWDEN_LENGTH reg gcmd st = Raise e st' tr ->
  st' = st /\ tr = [].
Proof.
  intros H.
  destruct (set_bowden_length_cases reg gcmd st) as [[e0 He]|(hub & h & v & _ & _ & Hr)].
  - rewrite He in H. injection H as _ <- <-. now split.
  - rewrite Hr in H. discriminate.
Qed.

(** X9: whatever the parameters, the command leaves the name and the
    configured length of every hub, the set of hubs, the extruders, the
    loaded lane and the hardware as they were; the one thing it can change is
    the working length of the hub it names. *)
Theorem set_bowden_length_keeps_configuration reg gcmd (st : State) :
  forall st' tr,
    (SET_BOWDEN_LENGTH reg gcmd st = Return st' tr
     \/ exists e, SET_BOWDEN_LENGTH reg gcmd st = Raise e st' tr) ->
    (forall hub, config_bowden_length <$> (hubs st' !! hub)
                 = config_bowden_length <$> (hubs st !! hub))
    /\ (forall hub, hub_name <$> (hubs st' !! hub) = hub_name <$> (hubs st !! hub))
    /\ (forall hub, gcmd !! "HUB" <> Some hub -> hubs st' !! hub = hubs st !! hub)
    /\ extruders st' = extruders st
    /\ current st' = current st
    /\ hardware st' = hardware st.
Proof.
  intros st' tr H.
  destruct (set_bowden_length_cases reg gcmd st) as [[e0 He]|(hub & h & v & Hhub & Hget & Hr)].
  - assert (st' = st) as ->.
    { destruct H as [H|[e H]]; rewrite He in H; [discriminate|]. now injection H. }
    repeat split.
  - assert (st' = set_afc_bowden_length hub h v st) as ->.
    { destruct H as [H|[e H]]; rewrite Hr in H; [|discriminate]. now injection H. }
    repeat split; try reflexivity.
    + intros other. destruct (decide (hub = other)) as [<-|Hne].
      * rewrite lookup_set_afc_bowden_length, Hget. reflexivity.
      * now rewrite lookup_set_afc_bowden_length_ne.
    + intros other. destruct (decide (hub = other)) as [<-|Hne].
      * rewrite lookup_set_afc_bowden_length, Hget. reflexivity.
      * now rewrite lookup_set_afc_bowden_length_ne.
    + intros other Hother. apply lookup_set_afc_bowden_length_ne. congruence.
Qed.

(** X10: signed lengths add up.  Two calls in a row with signed lengths on
    the same hub leave its working length at the first working length plus
    the first amount plus the second. *)
Theorem set_bowden_length_accumulates reg gcmd1 gcmd2 (st : State) hub CUR_HUB lp1 lp2 n1 n2 :
  gcmd1 !! "HUB" = Some hub -> gcmd2 !! "HUB" = Some hub ->
  hubs st !! hub = Some CUR_HUB ->
  gcmd1 !! "LENGTH" = Some lp1 -> gcmd2 !! "LENGTH" = Some lp2 ->
  Py.strip lp1 <> EmptyString -> Py.strip lp2 <> EmptyString ->
  is_relative lp1 = true -> is_relative lp2 = true ->
  float lp1 = Some n1 -> float lp2 = Some n2 ->
  exists st1 tr1 st2 tr2,
    SET_BOWDEN_LENGTH reg gcmd1 st = Return st1 tr1
    /\ SET_BOWDEN_LENGTH reg gcmd2 st1 = Return st2 tr2
    /\ hubs st2 !! hub
       = Some (mkHub (hub_name CUR_HUB) (config_bowden_length CUR_HUB)
                     (add (add (afc_bowden_length CUR_HUB) n1) n2)).
Proof.
  intros Hh1 Hh2 Hget Hl1 Hl2 Hs1 Hs2 Hr1 Hr2 Hf1 Hf2.
  apply String.eqb_neq in Hs1, Hs2.
  pose proof (set_bowden_length_named float add str reg gcmd1 st hub CUR_HUB Hh1 Hget) as H1.
  rewrite Hl1, Hs1, Hr1, Hf1 in H1. cbn [fmap option_fmap option_map] in H1.
  eexists _, _. rewrite H1.
  pose proof (set_bowden_length_named float add str reg gcmd2 _ hub _ Hh2
                (lookup_set_afc_bowden_length hub CUR_HUB
                   (add (afc_bowden_length CUR_HUB) n1) st)) as H2.
  rewrite Hl2, Hs2, Hr2, Hf2 in H2. cbn [fmap option_fmap option_map] in H2.
  eexists _, _. rewrite H2.
  split; [reflexivity|]. split; [reflexivity|].
  now rewrite lookup_set_afc_bowden_length.
Qed.

(** X11: a call without LENGTH undoes every adjustment.  After any call
    that returned, a call that names the same hub and gives no LENGTH sets
    the working length of that hub to the length of its configuration, as it
    was before the first call. *)
Theorem set_bowden_length_reset_undoes reg gcmd1 gcmd2 (st : State) hub CUR_HUB st1 tr1 :
  gcmd1 !! "HUB" = Some hub -> gcmd2 !! "HUB" = Some hub ->
  hubs st !! hub = Some CUR_HUB ->
  gcmd2 !! "LENGTH" = None ->
  SET_BOWDEN_LENGTH reg gcmd1 st = Return st1 tr1 ->
  exists st2 tr2,
    SET_BOWDEN_LENGTH reg gcmd2 st1 = Return st2 tr2
    /\ hubs st2 !! hub
       = Some (mkHub (hub_name CUR_HUB) (config_bowden_length CUR_HUB)
                     (config_bowden_length CUR_HUB)).
Proof.
  intros Hh1 Hh2 Hget Hl2 Hrun.
  destruct (set_bowden_length_cases reg gcmd1 st) as [[e0 He]|(hub' & h & v & Hhub & Hget' & Hr)].
  - rewrite He in Hrun. discriminate.
  - rewrite Hr in Hrun. injection Hrun as <- _.
    assert (hub' = hub) as -> by congruence.
    assert (h = CUR_HUB) as -> by congruence.
    pose proof (set_bowden_length_named float add str reg gcmd2 _ hub _ Hh2
                  (lookup_set_afc_bowden_length hub CUR_HUB v st)) as H2.
    rewrite Hl2 in H2. cbn [config_bowden_length hub_name] in H2.
    eexists _, _. rewrite H2. split; [reflexivity|].
    now rewrite lookup_set_afc_bowden_length.
Qed.

(** *** CALIBRATE_AFC *)

Lemma check_names_fails reg l u b (st : State) tr :
  valid_names reg l u b = false ->
  exists msg, check_names reg l u b st tr = Returned st (tr ++ [AFC_error msg]).
Proof.
  unfold valid_names, check_names, bind, emit, return_, pure. intros H.
  destruct l as [l|].
  - destruct (String.eqb l "all"), (is_in l (lanes reg)); simpl in *;
      try (eexists; reflexivity);
      (destruct u as [u|]; [destruct (is_in u (units reg))|]); simpl in *;
      try (eexists; reflexivity);
      (destruct b as [b|]; [destruct (is_in b (lanes reg))|]); simpl in *;
      try discriminate; eexists; reflexivity.
  - simpl in *.
    (destruct u as [u|]; [destruct (is_in u (units reg))|]); simpl in *;
      try (eexists; reflexivity);
      (destruct b as [b|]; [destruct (is_in b (lanes reg))|]); simpl in *;
      try discriminate; eexists; reflexivity.
Qed.

(** X12: a lane, a unit or a Bowden lane that is not known ends the
    command with one error report, before any call to a unit and with no
    change of state. *)
Theorem calibrate_afc_rejects_unknown_names reg gcmd (st : State) dis tol :
  float_value gcmd "DISTANCE" (num_of_Z 25) = Some dis ->
  float_value gcmd "TOLERANCE" (num_of_Z 5) = Some tol ->
  (current st = None \/ gcmd !! "BOWDEN" = None) ->
  valid_names reg (gcmd !! "LANE") (gcmd !! "UNIT") (gcmd !! "BOWDEN") = false ->
  exists msg, CALIBRATE_AFC reg gcmd st = Return st [AFC_error msg].
Proof.
  intros Hdis Htol Hfree Hnames.
  destruct (check_names_fails reg _ _ _ st [] Hnames) as [msg Hmsg].
  exists msg.
  unfold cmd_CALIBRATE_AFC, cmd_CALIBRATE_AFC_body, run.
  unfold bind at 1. rewrite (get_float_ok float _ _ _ _ _ _ Hdis).
  unfold bind at 1. rewrite (get_float_ok float _ _ _ _ _ _ Htol).
  unfold bind at 1. unfold get at 1.
  assert (Hgo : match current st, gcmd !! "BOWDEN" with
                | Some _, Some _ => false
                | _, _ => true
                end = true).
  { destruct Hfree as [->| ->]; [reflexivity|]. now destruct (current st). }
  destruct (current st), (gcmd !! "BOWDEN"); try discriminate;
    unfold bind at 1; rewrite Hmsg; reflexivity.
Qed.

(** X13: with a lane loaded, a call that asks for a Bowden calibration is
    turned down as a whole, whatever else it asks for: it logs that the tool
    must be unloaded and returns.  The distance calibrations LANE asks for
    are not made, no unit is called, and names that are not known are not
    reported. *)
Theorem calibrate_afc_refused_while_loaded reg gcmd (st : State) dis tol lane b :
  float_value gcmd "DISTANCE" (num_of_Z 25) = Some dis ->
  float_value gcmd "TOLERANCE" (num_of_Z 5) = Some tol ->
  current st = Some lane ->
  gcmd !! "BOWDEN" = Some b ->
  CALIBRATE_AFC reg gcmd st
  = Return st [Info "Tool must be unloaded to calibrate Bowden length"].
Proof.
  intros Hdis Htol Hcur Hb.
  exact (calibrate_afc_loaded num_of_Z float str calibrate_lane calibrate_bowden
           reg gcmd st dis tol lane b Hdis Htol Hcur Hb).
Qed.

(** X14: with LANE=all and no Bowden lane, when the pass of every lane
    succeeds, the command calls the unit once for each lane, in the order of
    the dictionary, each pass starting from the state the one before left,
    and ends with the line that the calibration is done. *)
Theorem batch_all_pass reg gcmd (st : State) dis tol prelude unit_of todo st1 msgs :
  gcmd !! "LANE" = Some "all" ->
  gcmd !! "BOWDEN" = None ->
  float_value gcmd "DISTANCE" (num_of_Z 25) = Some dis ->
  float_value gcmd "TOLERANCE" (num_of_Z 5) = Some tol ->
  valid_names reg (gcmd !! "LANE") (gcmd !! "UNIT") (gcmd !! "BOWDEN") = true ->
  batch_of reg (gcmd !! "UNIT") = Some (prelude, unit_of, todo) ->
  passes num Hardware calibrate_lane unit_of tol todo st = Some (st1, msgs) ->
  CALIBRATE_AFC reg gcmd st
  = Return st1 (Info "Starting AFC distance Calibrations"
                  :: prelude ++ map (fun l => Calibrate_lane (unit_of l) l tol) todo
                  ++ [Info "Lane calibration Done!"]).
Proof.
  intros Hall Hb Hdis Htol Hnames Hbatch Hpass.
  rewrite (calibrate_afc_checked num_of_Z float str calibrate_lane calibrate_bowden
             reg gcmd st dis tol Hdis Htol (or_intror Hb) Hnames).
  rewrite Hall, Hb. unfold run, calibrate_distances.
  unfold bind at 1. unfold bind at 1. unfold bind at 1. unfold emit at 1.
  unfold batch_of in Hbatch.
  pose proof (calibrate_each_passes calibrate_lane unit_of tol todo [] ) as Heach.
  rewrite app_nil_r in Heach.
  destruct (gcmd !! "UNIT") as [u|].
  - destruct (dict_get u (units reg)) as [CUR_UNIT|]; [|discriminate].
    injection Hbatch as <- <- Hl. cbn [String.eqb Ascii.eqb Bool.eqb].
    unfold bind at 1. unfold bind at 1. unfold emit at 1. rewrite Hl.
    rewrite (Heach _ _ _ _ _ Hpass). cbn [calibrate_each].
    unfold pure at 1. unfold bind, emit, pure. reflexivity.
  - injection Hbatch as <- <- Hl. cbn [String.eqb Ascii.eqb Bool.eqb].
    unfold bind at 1. rewrite Hl.
    rewrite (Heach _ _ _ _ _ Hpass). cbn [calibrate_each].
    unfold pure at 1. unfold bind, emit, pure. reflexivity.
Qed.

(** With one lane named, the unit that is called is the unit of that lane,
    whether UNIT is given or not. *)
Lemma distances_single_lane reg lane u tol cal_msg :
  String.eqb lane "all" = false ->
  distances reg (Some lane) (Some u) tol cal_msg
  = distances reg (Some lane) None tol cal_msg.
Proof. intros H. unfold calibrate_distances. now rewrite H. Qed.

(** Once the parameters parse and no lane is loaded or no Bowden lane is
    given, the command is the checks of the names and what follows them. *)
Lemma calibrate_afc_parsed reg gcmd (st : State) dis tol :
  float_value gcmd "DISTANCE" (num_of_Z 25) = Some dis ->
  float_value gcmd "TOLERANCE" (num_of_Z 5) = Some tol ->
  (current st = None \/ gcmd !! "BOWDEN" = None) ->
  CALIBRATE_AFC reg gcmd st
  = match check_names reg (gcmd !! "LANE") (gcmd !! "UNIT") (gcmd !! "BOWDEN") st [] with
    | Next _ st' tr' =>
        match distances reg (gcmd !! "LANE") (gcmd !! "UNIT") tol EmptyString st' tr' with
        | Next cal_msg st'' tr'' =>
            match gcmd !! "BOWDEN" with
            | Some b =>
                match bowden_length reg b dis tol cal_msg st'' tr'' with
                | Next _ s t | Returned s t => Return s t
                | Raised e s t => Raise e s t
                end
            | None => Return st'' tr''
            end
        | Returned s t => Return s t
        | Raised e s t => Raise e s t
        end
    | Returned s t => Return s t
    | Raised e s t => Raise e s t
    end.
Proof.
  intros Hdis Htol Hfree.
  unfold cmd_CALIBRATE_AFC, cmd_CALIBRATE_AFC_body, run.
  unfold bind at 1. rewrite (get_float_ok float _ _ _ _ _ _ Hdis).
  unfold bind at 1. rewrite (get_float_ok float _ _ _ _ _ _ Htol).
  unfold bind at 1. unfold get at 1.
  assert (Hgo : match current st, gcmd !! "BOWDEN" with
                | Some _, Some _ => false
                | _, _ => true
                end = true).
  { destruct Hfree as [->| ->]; [reflexivity|]. now destruct (current st). }
  destruct (current st), (gcmd !! "BOWDEN"); try discriminate;
    unfold bind at 1;
    destruct (check_names reg _ _ _ st []) as [? st' tr'| |]; try reflexivity;
    unfold bind at 1;
    destruct (distances reg _ _ tol EmptyString st' tr'); reflexivity.
Qed.

(** X15: a lane named by LANE wins over UNIT.  For a known lane and a
    known unit, the command does with UNIT what it does without it: the one
    pass it makes is made by the unit the lane belongs to, also when UNIT
    names another unit. *)
Theorem single_lane_ignores_unit reg gcmd (st : State) dis tol lane u :
  gcmd !! "LANE" = Some lane ->
  String.eqb lane "all" = false ->
  gcmd !! "UNIT" = Some u ->
  is_in u (units reg) = true ->
  float_value gcmd "DISTANCE" (num_of_Z 25) = Some dis ->
  float_value gcmd "TOLERANCE" (num_of_Z 5) = Some tol ->
  CALIBRATE_AFC reg gcmd st = CALIBRATE_AFC reg (delete "UNIT" gcmd) st.
Proof.
  intros Hlane Hall Hunit Hu Hdis Htol.
  assert (Hne : forall k, k <> "UNIT" -> delete "UNIT" gcmd !! k = gcmd !! k).
  { intros k Hk. apply lookup_delete_ne. congruence. }
  assert (Hdis' : float_value (delete "UNIT" gcmd) "DISTANCE" (num_of_Z 25) = Some dis).
  { unfold get_float_value. now rewrite Hne by discriminate. }
  assert (Htol' : float_value (delete "UNIT" gcmd) "TOLERANCE" (num_of_Z 5) = Some tol).
  { unfold get_float_value. now rewrite Hne by discriminate. }
  destruct (current st) as [loaded|] eqn:Hcur; [destruct (gcmd !! "BOWDEN") as [b|] eqn:Hb|].
  - rewrite (calibrate_afc_loaded num_of_Z float str calibrate_lane calibrate_bowden
               reg gcmd st dis tol loaded b Hdis Htol Hcur Hb).
    symmetry.
    apply (calibrate_afc_loaded num_of_Z float str calibrate_lane calibrate_bowden
             reg _ st dis tol loaded b Hdis' Htol' Hcur).
    now rewrite Hne by discriminate.
  - rewrite (calibrate_afc_parsed reg gcmd st dis tol Hdis Htol (or_intror Hb)).
    rewrite (calibrate_afc_parsed reg _ st dis tol Hdis' Htol').
    2:{ right. now rewrite Hne by discriminate. }
    rewrite (Hne "LANE"), (Hne "BOWDEN") by discriminate.
    rewrite lookup_delete_eq, Hunit, Hlane, Hb.
    assert (Hchk : check_names reg (Some lane) (Some u) None st []
                   = check_names reg (Some lane) None None st []).
    { unfold check_names, bind. now rewrite Hu. }
    rewrite Hchk.
    destruct (check_names reg (Some lane) None None st []); try reflexivity.
    now rewrite (distances_single_lane reg lane u tol EmptyString Hall).
  - rewrite (calibrate_afc_parsed reg gcmd st dis tol Hdis Htol (or_introl Hcur)).
    rewrite (calibrate_afc_parsed reg _ st dis tol Hdis' Htol' (or_introl Hcur)).
    rewrite (Hne "LANE"), (Hne "BOWDEN") by discriminate.
    rewrite lookup_delete_eq, Hunit, Hlane.
    assert (Hchk : check_names reg (Some lane) (Some u) (gcmd !! "BOWDEN") st []
                   = check_names reg (Some lane) None (gcmd !! "BOWDEN") st []).
    { unfold check_names, bind. now rewrite Hu. }
    rewrite Hchk.
    destruct (check_names reg (Some lane) None (gcmd !! "BOWDEN") st []); try reflexivity.
    now rewrite (distances_single_lane reg lane u tol EmptyString Hall).
Qed.

(** X16: the start sensor is not put back when the Bowden pass raises.
    In the configuration where the buffer stands in for the start sensor, an
    exception of the unit leaves the command at once: the state is the one the
    unit left, so a unit that did not touch the extruder leaves its start
    sensor set to the buffer, and the line that the calibration is done is
    not logged. *)
Theorem bowden_pass_raises_keeps_buffer reg gcmd (st : State) dis tol b CUR_LANE
        cal_msg st1 tr1 pin buffer st2 msg :
  float_value gcmd "DISTANCE" (num_of_Z 25) = Some dis ->
  float_value gcmd "TOLERANCE" (num_of_Z 5) = Some tol ->
  gcmd !! "BOWDEN" = Some b ->
  current st = None ->
  valid_names reg (gcmd !! "LANE") (gcmd !! "UNIT") (gcmd !! "BOWDEN") = true ->
  distances reg (gcmd !! "LANE") (gcmd !! "UNIT") tol EmptyString st [] = Next cal_msg st1 tr1 ->
  dict_get b (lanes reg) = Some CUR_LANE ->
  tool_start (extruders st1 (extruder_obj CUR_LANE)) = None ->
  tool_end (extruders st1 (extruder_obj CUR_LANE)) = Some pin ->
  buffer_obj CUR_LANE = Some buffer ->
  calibrate_bowden (unit_obj CUR_LANE) CUR_LANE dis tol
                   (set_tool_start (extruder_obj CUR_LANE) (Some "buffer") st1)
  = Failed st2 msg ->
  CALIBRATE_AFC reg gcmd st
  = Raise (HandleError msg) st2
      (tr1 ++ [Info "Cannot run calibration using post extruder sensor, using buffer to calibrate bowden length";
               Info "Starting AFC distance Calibrations";
               Calibrate_bowden (unit_obj CUR_LANE) CUR_LANE dis tol])
  /\ (extruders st2 (extruder_obj CUR_LANE)
      = extruders (set_tool_start (extruder_obj CUR_LANE) (Some "buffer") st1)
                  (extruder_obj CUR_LANE) ->
      tool_start (extruders st2 (extruder_obj CUR_LANE)) = Some "buffer").
Proof.
  intros Hdis Htol Hb Hcur Hnames Hdist Hlane Hstart Hend Hbuf Hpass. split.
  - rewrite (calibrate_afc_checked num_of_Z float str calibrate_lane calibrate_bowden
               reg gcmd st dis tol Hdis Htol (or_introl Hcur) Hnames).
    unfold run. unfold bind at 1. rewrite Hdist, Hb.
    now rewrite (bowden_length_pass_raises str calibrate_bowden reg b CUR_LANE dis tol
                   cal_msg st1 tr1 pin buffer st2 msg Hlane Hstart Hend Hbuf Hpass).
  - intros Hsame. rewrite Hsame. now rewrite set_tool_start_extruder.
Qed.

(** X17: the Bowden calibration runs in one sensor configuration only.
    Unless the extruder of the lane has no start sensor, has an end sensor,
    and the lane has a buffer, the command reports that it cannot calibrate
    and returns without a call for the Bowden pass, leaving the state as the
    distance calibrations left it. *)
Theorem bowden_refused_unless_substitution reg gcmd (st : State) dis tol b CUR_LANE
        cal_msg st1 tr1 :
  float_value gcmd "DISTANCE" (num_of_Z 25) = Some dis ->
  float_value gcmd "TOLERANCE" (num_of_Z 5) = Some tol ->
  gcmd !! "BOWDEN" = Some b ->
  current st = None ->
  valid_names reg (gcmd !! "LANE") (gcmd !! "UNIT") (gcmd !! "BOWDEN") = true ->
  distances reg (gcmd !! "LANE") (gcmd !! "UNIT") tol EmptyString st [] = Next cal_msg st1 tr1 ->
  dict_get b (lanes reg) = Some CUR_LANE ->
  match tool_start (extruders st1 (extruder_obj CUR_LANE)),
        tool_end (extruders st1 (extruder_obj CUR_LANE)),
        buffer_obj CUR_LANE with
  | None, Some _, Some _ => false
  | _, _, _ => true
  end = true ->
  CALIBRATE_AFC reg gcmd st
  = Return st1
      (tr1 ++ [AFC_error "Cannot calibrate with only post extruder sensor and no turtleneck buffer defined in config"]).
Proof.
  intros Hdis Htol Hb Hcur Hnames Hdist Hlane Hcfg.
  rewrite (calibrate_afc_checked num_of_Z float str calibrate_lane calibrate_bowden
             reg gcmd st dis tol Hdis Htol (or_introl Hcur) Hnames).
  unfold run. unfold bind at 1. rewrite Hdist, Hb.
  now rewrite (bowden_length_refuses str calibrate_bowden reg b CUR_LANE dis tol
                 cal_msg st1 tr1 Hlane Hcfg).
Qed.

End CommandMore.

(** ** TcmdAssign *)

Lemma first_free_some cmds n : forall x y,
  Tcmd.first_free cmds n x = Some y ->
  x <= y < x + n
  /\ Tcmd.taken cmds y = false
  /\ (forall z, x <= z < y -> Tcmd.taken cmds z = true).
Proof.
  induction n as [|n IH]; intros x y H; simpl in H; [discriminate|].
  destruct (Tcmd.taken cmds x) eqn:Hx.
  - destruct (IH (S x) y H) as (Hrange & Hfree & Hbelow).
    split; [lia|]. split; [exact Hfree|].
    intros z Hz. destruct (Nat.eq_dec z x) as [->|Hne]; [exact Hx|].
    apply Hbelow. lia.
  - injection H as <-. split; [lia|]. split; [exact Hx|]. intros z Hz. lia.
Qed.

Lemma first_free_none cmds n : forall x,
  Tcmd.first_free cmds n x = None <-> forallb (Tcmd.taken cmds) (seq x n) = true.
Proof.
  induction n as [|n IH]; intros x; simpl; [tauto|].
  destruct (Tcmd.taken cmds x); simpl; [apply IH|].
  split; discriminate.
Qed.

Lemma taken_false cmds x : Tcmd.taken cmds x = false -> cmds !! Tcmd.T x = None.
Proof. unfold Tcmd.taken. now destruct (cmds !! Tcmd.T x). Qed.

Lemma taken_true cmds x : Tcmd.taken cmds x = true -> is_Some (cmds !! Tcmd.T x).
Proof. unfold Tcmd.taken. destruct (cmds !! Tcmd.T x); [eauto|discriminate]. Qed.

Lemma T_not_NONE x : Tcmd.T x <> "NONE".
Proof. unfold Tcmd.T. rewrite append_cons. discriminate. Qed.

(** X18: a lane without a command gets the first free one.  When the lane
    has the map NONE and one of T0 ... T98 is not in the table, the lane is
    given the command of the smallest such number; that command had no owner,
    and the table is the old one with this one entry added. *)
Theorem tcmd_assign_first_free accepts cmds name :
  forallb (Tcmd.taken cmds) (seq 0 99) = false ->
  exists x,
    x < 99
    /\ Tcmd.map (Tcmd.TcmdAssign accepts cmds name "NONE") = Tcmd.T x
    /\ cmds !! Tcmd.T x = None
    /\ (forall y, y < x -> is_Some (cmds !! Tcmd.T y))
    /\ Tcmd.tool_cmds (Tcmd.TcmdAssign accepts cmds name "NONE") = <[Tcmd.T x := name]> cmds.
Proof.
  intros Hfree. unfold Tcmd.TcmdAssign. cbn [String.eqb Ascii.eqb Bool.eqb].
  destruct (Tcmd.first_free cmds 99 0) as [x|] eqn:Hx.
  - destruct (first_free_some cmds 99 0 x Hx) as (Hrange & Hfreex & Hbelow).
    exists x. cbn [Tcmd.map Tcmd.tool_cmds].
    repeat split; [lia | now apply taken_false |].
    intros y Hy. apply taken_true, Hbelow. lia.
  - apply first_free_none in Hx. congruence.
Qed.

(** X19: when T0 ... T98 are all in the table, a lane with the map NONE
    keeps that map, and the function goes on with it: NONE is entered in the
    table as a command of this lane, and is handed to the gcode
    registration. *)
Theorem tcmd_assign_exhausted accepts cmds name :
  forallb (Tcmd.taken cmds) (seq 0 99) = true ->
  Tcmd.map (Tcmd.TcmdAssign accepts cmds name "NONE") = "NONE"
  /\ Tcmd.tool_cmds (Tcmd.TcmdAssign accepts cmds name "NONE") = <["NONE" := name]> cmds
  /\ hd_error (Tcmd.events (Tcmd.TcmdAssign accepts cmds name "NONE"))
     = Some (Tcmd.Register_command "NONE").
Proof.
  intros Hfull. apply first_free_none in Hfull.
  unfold Tcmd.TcmdAssign. cbn [String.eqb Ascii.eqb Bool.eqb]. rewrite Hfull.
  repeat split.
Qed.

(** X20: two lanes do not get the same command.  When a lane with the map
    NONE has been given a command, a second lane with the map NONE, assigned
    from the table the first call left, gets another command (or none, when
    the table is full). *)
Theorem tcmd_assign_distinct accepts1 accepts2 cmds name1 name2 :
  forallb (Tcmd.taken cmds) (seq 0 99) = false ->
  Tcmd.map (Tcmd.TcmdAssign accepts2
              (Tcmd.tool_cmds (Tcmd.TcmdAssign accepts1 cmds name1 "NONE")) name2 "NONE")
  <> Tcmd.map (Tcmd.TcmdAssign accepts1 cmds name1 "NONE").
Proof.
  intros Hfree.
  destruct (Tcmd.first_free cmds 99 0) as [x|] eqn:Hx.
  2:{ apply first_free_none in Hx. congruence. }
  assert (H1 : Tcmd.TcmdAssign accepts1 cmds name1 "NONE"
               = Tcmd.mkAssigned (Tcmd.T x) (<[Tcmd.T x := name1]> cmds)
                   (Tcmd.Register_command (Tcmd.T x)
                    :: (if accepts1 (Tcmd.T x) then []
                        else [Tcmd.Info (Tcmd.map_error name1 (Tcmd.T x))])
                    ++ [Tcmd.Save_vars])).
  { unfold Tcmd.TcmdAssign. cbn [String.eqb Ascii.eqb Bool.eqb]. now rewrite Hx. }
  rewrite H1. cbn [Tcmd.map Tcmd.tool_cmds].
  unfold Tcmd.TcmdAssign. cbn [String.eqb Ascii.eqb Bool.eqb].
  destruct (Tcmd.first_free (<[Tcmd.T x := name1]> cmds) 99 0) as [y|] eqn:Hy;
    cbn [Tcmd.map].
  - destruct (first_free_some _ 99 0 y Hy) as (_ & Hfreey & _).
    apply taken_false in Hfreey. intros Heq. rewrite Heq in Hfreey.
    rewrite lookup_insert_eq in Hfreey. discriminate.
  - intros Heq. symmetry in Heq. now apply T_not_NONE in Heq.
Qed.

(** ** afcDeltaTime *)

(** After [set_start_time], calls that log leave the start as it is and
    move each mark to the reading of its own last call; each logs one
    line. *)
Lemma delta_time_marks cs : forall start last major,
  forallb DeltaTime.is_log cs = true ->
  exists lines,
    DeltaTime.calls cs (DeltaTime.mk (Some start) (Some last) (Some major))
    = DeltaTime.Ok (DeltaTime.mk (Some start) (Some (DeltaTime.last_fine last cs))
                                 (Some (DeltaTime.last_major major cs))) lines
    /\ length lines = length cs.
Proof.
  induction cs as [|c cs IH]; intros start last major Hlog.
  - exists []. split; reflexivity.
  - simpl in Hlog. apply andb_prop in Hlog as [Hc Hcs].
    destruct c as [now|msg debug now|msg debug now|msg now]; [discriminate| | |].
    + destruct (IH start now major Hcs) as (lines & Hrun & Hlen).
      exists (DeltaTime.Timed debug msg (now - last) (now - start) :: lines).
      cbn [DeltaTime.calls DeltaTime.call DeltaTime.log_with_time
           DeltaTime.last_time DeltaTime.start_time DeltaTime.major_delta_time].
      rewrite Hrun. split; [reflexivity|]. simpl. now rewrite Hlen.
    + destruct (IH start last now Hcs) as (lines & Hrun & Hlen).
      exists (DeltaTime.Major msg (now - major) :: lines).
      cbn [DeltaTime.calls DeltaTime.call DeltaTime.log_major_delta
           DeltaTime.last_time DeltaTime.start_time DeltaTime.major_delta_time].
      rewrite Hrun. split; [reflexivity|]. simpl. now rewrite Hlen.
    + destruct (IH start last major Hcs) as (lines & Hrun & Hlen).
      exists (DeltaTime.Total msg (now - start) :: lines).
      cbn [DeltaTime.calls DeltaTime.call DeltaTime.log_total_time
           DeltaTime.last_time DeltaTime.start_time DeltaTime.major_delta_time].
      rewrite Hrun. split; [reflexivity|]. simpl. now rewrite Hlen.
Qed.

(** After [set_start_time] no call raises, whatever it is. *)
Lemma delta_time_started cs : forall start last major,
  exists d lines,
    DeltaTime.calls cs (DeltaTime.mk (Some start) (Some last) (Some major))
    = DeltaTime.Ok d lines.
Proof.
  induction cs as [|c cs IH]; intros start last major.
  - eexists _, _. reflexivity.
  - destruct c as [now|msg debug now|msg debug now|msg now];
      cbn [DeltaTime.calls DeltaTime.call DeltaTime.set_start_time
           DeltaTime.log_with_time DeltaTime.log_major_delta DeltaTime.log_total_time
           DeltaTime.last_time DeltaTime.start_time DeltaTime.major_delta_time].
    + destruct (IH now now now) as (d & lines & ->). eexists _, _. reflexivity.
    + destruct (IH start now major) as (d & lines & ->). eexists _, _. reflexivity.
    + destruct (IH start last now) as (d & lines & ->). eexists _, _. reflexivity.
    + destruct (IH start last major) as (d & lines & ->). eexists _, _. reflexivity.
Qed.

(** X21: the marks after the start.  After [set_start_time] at t0,
    whatever calls that log follow and whatever the clock reads (it may go
    back), nothing raises and each call logs one line; the start is still
    t0, [last_time] is the reading of the last [log_with_time] and
    [major_delta_time] the reading of the last [log_major_delta], t0 where
    there was none: the marks of one kind do not move the other. *)
Theorem delta_time_marks_after_start d t0 cs :
  forallb DeltaTime.is_log cs = true ->
  exists lines,
    DeltaTime.calls (DeltaTime.Set_start_time t0 :: cs) d
    = DeltaTime.Ok (DeltaTime.mk (Some t0) (Some (DeltaTime.last_fine t0 cs))
                                 (Some (DeltaTime.last_major t0 cs))) lines
    /\ length lines = length cs.
Proof.
  intros Hlog.
  destruct (delta_time_marks cs t0 t0 t0 Hlog) as (lines & Hrun & Hlen).
  exists lines.
  cbn [DeltaTime.calls DeltaTime.call DeltaTime.set_start_time]. rewrite Hrun.
  split; [reflexivity | exact Hlen].
Qed.

(** X22: on a new object the first call has to be [set_start_time].  A
    sequence of calls on a new object that starts with [set_start_time] goes
    through without an exception, whatever follows; one that starts with a
    call that logs raises at that call: a TypeError for a fine mark or a
    total, an AttributeError for a major mark, whose attribute the
    constructor does not set. *)
Theorem delta_time_needs_start c cs :
  match c with
  | DeltaTime.Set_start_time _ =>
      exists d lines, DeltaTime.calls (c :: cs) DeltaTime.init = DeltaTime.Ok d lines
  | DeltaTime.Log_major_delta _ _ _ =>
      DeltaTime.calls (c :: cs) DeltaTime.init
      = DeltaTime.Raised (DeltaTime.AttributeError "major_delta_time")
  | _ =>
      DeltaTime.calls (c :: cs) DeltaTime.init = DeltaTime.Raised DeltaTime.TypeError
  end.
Proof.
  destruct c as [now|msg debug now|msg debug now|msg now]; try reflexivity.
  cbn [DeltaTime.calls DeltaTime.call DeltaTime.set_start_time].
  destruct (delta_time_started cs now now now) as (d & lines & ->).
  eexists _, _. reflexivity.
Qed.

(** ** afc_led *)

Lemma split_no_sep sep s : Py.index sep s = None -> Led.split sep s = [s].
Proof.
  induction s as [|a s IH]; intros H; [reflexivity|].
  simpl in *. destruct (Ascii.eqb a sep); [discriminate|].
  destruct (Py.index sep s); [discriminate|]. now rewrite IH.
Qed.

Lemma split_at_sep sep a b :
  Py.index sep a = None ->
  Led.split sep (a +:+ String sep b) = a :: Led.split sep b.
Proof.
  induction a as [|x a IH]; intros H.
  - rewrite append_empty_l. simpl. now rewrite Ascii.eqb_refl.
  - rewrite append_cons. simpl in *. destruct (Ascii.eqb x sep); [discriminate|].
    destruct (Py.index sep a); [discriminate|]. now rewrite IH.
Qed.

(** X23: a led index of the form name:number.  For a name and a number
    text without colon, [afc_led] looks up the object AFC_led name; when it
    is there, the led of the number is set to the status (and a number text
    that [int] does not take raises a ValueError); when it is not there,
    nothing is set, nothing is raised, and the one line logged names the
    object and ends with the number text. *)
Theorem afc_led_indexed objects int status name number :
  Py.index ":" name = None ->
  Py.index ":" number = None ->
  Led.afc_led objects int status (Some (name +:+ ":" +:+ number))
  = if objects ("AFC_led " +:+ name)
    then match int number with
         | Some n => inr [Led.Led_change ("AFC_led " +:+ name) n status]
         | None => inl (Led.ValueError number)
         end
    else inr [Led.Info ("Error: Cannot find [AFC_led " +:+ name
                        +:+ "] in config, make sure led_index in config is correct for AFC_stepper "
                        +:+ number)].
Proof.
  intros Hname Hnumber.
  unfold Led.afc_led, Led.verify_led_object, Led.cannot_find, Led.led_object.
  change (name +:+ ":" +:+ number) with (name +:+ String ":" number).
  rewrite (split_at_sep ":" name number Hname), (split_no_sep ":" number Hnumber).
  cbn [hd last nth_error].
  destruct (objects ("AFC_led " +:+ name)); [|now rewrite !append_assoc].
  reflexivity.
Qed.

Lemma afc_led_indexed_witness :
  Led.afc_led (String.eqb "AFC_led AFC_Indicator")
              (fun s => if String.eqb s "3" then Some 3%Z else None)
              "0,0,1,0" (Some "AFC_Indicator:3")
  = inr [Led.Led_change "AFC_led AFC_Indicator" 3 "0,0,1,0"].
Proof.
  exact (afc_led_indexed (String.eqb "AFC_led AFC_Indicator")
           (fun s => if String.eqb s "3" then Some 3%Z else None)
           "0,0,1,0" "AFC_Indicator" "3" eq_refl eq_refl).
Defined.

(** X24: a led index without a colon.  When the object AFC_led idx is
    there, [afc_led] raises an IndexError, since it asks for the second part
    of the index; when it is not there, the missing object is logged and
    nothing is raised.  Without an index nothing is done at all. *)
Theorem afc_led_without_number objects int status idx :
  Py.index ":" idx = None ->
  Led.afc_led objects int status (Some idx)
  = (if objects ("AFC_led " +:+ idx)
     then inl Led.IndexError
     else inr [Led.Info ("Error: Cannot find [AFC_led " +:+ idx
                         +:+ "] in config, make sure led_index in config is correct for AFC_stepper "
                         +:+ idx)])
  /\ Led.afc_led objects int status None = inr [].
Proof.
  intros Hidx. split; [|reflexivity].
  unfold Led.afc_led, Led.verify_led_object, Led.cannot_find, Led.led_object.
  rewrite (split_no_sep ":" idx Hidx). cbn [hd last nth_error].
  destruct (objects ("AFC_led " +:+ idx)); [reflexivity|now rewrite !append_assoc].
Qed.

Lemma afc_led_without_number_witness :
  Led.afc_led (String.eqb "AFC_led AFC_Indicator") (fun _ => None)
              "0,0,1,0" (Some "AFC_Indicator")
  = inl Led.IndexError.
Proof.
  destruct (afc_led_without_number (String.eqb "AFC_led AFC_Indicator") (fun _ => None)
              "0,0,1,0" "AFC_Indicator" eq_refl) as [H _].
  exact H.
Defined.

(** ** handle_activate_extruder *)

(** The calls of the loop that are not led calls: each lane whose key is
    not the name of the loaded lane is disabled, in order. *)
Lemma disable_others_calls objects int cur todo : forall done,
  Activate.disable_others objects int cur todo = (done, None) ->
  List.filter Activate.not_led done
  = flat_map (fun entry =>
                if match cur with
                   | None => true
                   | Some c => negb (String.eqb (fst entry) (Activate.name c))
                   end
                then [Activate.Do_enable (fst entry) false; Activate.Disable_buffer (fst entry)]
                else []) todo.
Proof.
  induction todo as [|[key obj] rest IH]; intros done H; simpl in H.
  - injection H as <-. reflexivity.
  - cbn [flat_map fst].
    destruct (match cur with
              | None => true
              | Some c => negb (String.eqb key (Activate.name c))
              end).
    + destruct (Led.afc_led objects int (Activate.led_ready obj) (Activate.led_index obj))
        as [e|leds]; [discriminate|].
      destruct (Activate.disable_others objects int cur rest) as [more exn].
      injection H as <- ->. cbn [List.filter Activate.not_led app].
      rewrite List.filter_app, (IH more eq_refl).
      assert (Hleds : List.filter Activate.not_led (map Activate.Led leds) = []).
      { clear. induction leds as [|l leds IHl]; [reflexivity|exact IHl]. }
      now rewrite Hleds.
    + now apply IH.
Qed.

Lemma activate_calls objects int a done :
  Activate.handle_activate_extruder objects int a = (done, None) ->
  List.filter Activate.not_led done
  = flat_map (fun entry =>
                if match Activate.get_current_lane_obj a with
                   | None => true
                   | Some c => negb (String.eqb (fst entry) (Activate.name c))
                   end
                then [Activate.Do_enable (fst entry) false; Activate.Disable_buffer (fst entry)]
                else []) (Activate.lanes a)
    ++ match Activate.get_current_lane_obj a, Activate.get_current_lane a with
       | Some cur, Some key =>
           [Activate.Set_active_spool (Activate.spool_id cur);
            Activate.Do_enable key true; Activate.Enable_buffer key]
       | _, _ => [Activate.Set_active_spool EmptyString]
       end.
Proof.
  unfold Activate.handle_activate_extruder. intros H.
  destruct (Activate.disable_others objects int (Activate.get_current_lane_obj a)
              (Activate.lanes a)) as [loop [e|]] eqn:Hloop; [discriminate|].
  pose proof (disable_others_calls _ _ _ _ _ Hloop) as Hcalls.
  assert (Hleds : forall leds, List.filter Activate.not_led (map Activate.Led leds) = []).
  { induction leds as [|l leds IHl]; [reflexivity|exact IHl]. }
  destruct (Activate.get_current_lane_obj a) as [cur|];
    [destruct (Activate.get_current_lane a) as [key|]|].
  - destruct (Led.afc_led objects int (Activate.led_tool_loaded cur) (Activate.led_index cur))
      as [e|leds]; [discriminate|].
    injection H as <-. rewrite List.filter_app, Hcalls. f_equal.
    cbn [List.filter Activate.not_led]. rewrite List.filter_app, Hleds. reflexivity.
  - injection H as <-. rewrite List.filter_app, Hcalls. reflexivity.
  - injection H as <-. rewrite List.filter_app, Hcalls. reflexivity.
Qed.

(** X25: with no lane loaded, every lane is switched off.  When the
    printer is not ready, or its extruder has no lane loaded that is in the
    dictionary, a call that no led index makes fail disables every lane and
    its buffer, in the order of the dictionary, clears the active spool, and
    enables nothing. *)
Theorem activate_nothing_loaded objects int a done :
  Activate.get_current_lane_obj a = None ->
  Activate.handle_activate_extruder objects int a = (done, None) ->
  List.filter Activate.not_led done
  = flat_map (fun entry => [Activate.Do_enable (fst entry) false;
                            Activate.Disable_buffer (fst entry)]) (Activate.lanes a)
    ++ [Activate.Set_active_spool EmptyString].
Proof.
  intros Hnone Hrun. rewrite (activate_calls objects int a done Hrun), Hnone.
  reflexivity.
Qed.

(** X26: with a lane loaded, that lane alone ends enabled.  When the
    loaded lane is in the dictionary under its own name, a call that no led
    index makes fail never disables it and enables it at the end, after the
    spool of the lane has been made the active one; every lane under another
    key is disabled, and no other lane is enabled. *)
Theorem activate_loaded_lane objects int a done key cur :
  Activate.get_current_lane a = Some key ->
  dict_get key (Activate.lanes a) = Some cur ->
  Activate.name cur = key ->
  Activate.handle_activate_extruder objects int a = (done, None) ->
  In (Activate.Do_enable key true) done
  /\ ~ In (Activate.Do_enable key false) done
  /\ In (Activate.Set_active_spool (Activate.spool_id cur)) done
  /\ (forall other obj, In (other, obj) (Activate.lanes a) -> other <> key ->
        In (Activate.Do_enable other false) done)
  /\ (forall other, In (Activate.Do_enable other true) done -> other = key).
Proof.
  intros Hkey Hget Hname Hrun.
  pose proof (activate_calls objects int a done Hrun) as Hcalls.
  assert (Hobj : Activate.get_current_lane_obj a = Some cur).
  { unfold Activate.get_current_lane_obj. now rewrite Hkey. }
  rewrite Hobj, Hkey, Hname in Hcalls.
  assert (Hin : forall e, Activate.not_led e = true ->
                  (In e done <-> In e (List.filter Activate.not_led done))).
  { intros e He. rewrite List.filter_In. tauto. }
  assert (Hloop : forall e,
            In e (flat_map (fun entry : string * Activate.LaneObj =>
                              if negb (String.eqb (fst entry) key)
                              then [Activate.Do_enable (fst entry) false;
                                    Activate.Disable_buffer (fst entry)]
                              else []) (Activate.lanes a))
            <-> exists other obj, In (other, obj) (Activate.lanes a) /\ other <> key
                                  /\ (e = Activate.Do_enable other false
                                      \/ e = Activate.Disable_buffer other)).
  { intros e. rewrite in_flat_map. split.
    - intros ([other obj] & Hentry & He). cbn [fst] in He.
      destruct (String.eqb_spec other key) as [->|Hne]; [destruct He|].
      exists other, obj. repeat split; [exact Hentry|exact Hne|].
      destruct He as [<-|[<-|[]]]; auto.
    - intros (other & obj & Hentry & Hne & He).
      exists (other, obj). split; [exact Hentry|]. cbn [fst].
      apply String.eqb_neq in Hne. rewrite Hne. simpl.
      destruct He as [->| ->]; auto. }
  repeat split.
  - apply Hin; [reflexivity|]. rewrite Hcalls, in_app_iff. right. simpl. auto.
  - intros Hbad. apply Hin in Hbad; [|reflexivity].
    rewrite Hcalls, in_app_iff in Hbad. destruct Hbad as [Hbad|Hbad].
    + apply Hloop in Hbad as (other & obj & _ & Hne & [He|He]); congruence.
    + simpl in Hbad. destruct Hbad as [?|[?|[?|[]]]]; discriminate.
  - apply Hin; [reflexivity|]. rewrite Hcalls, in_app_iff. right. simpl. auto.
  - intros other obj Hentry Hne. apply Hin; [reflexivity|].
    rewrite Hcalls, in_app_iff. left. apply Hloop. eauto 6.
  - intros other Hother. apply Hin in Hother; [|reflexivity].
    rewrite Hcalls, in_app_iff in Hother. destruct Hother as [Hother|Hother].
    + apply Hloop in Hother as (o & obj & _ & _ & [He|He]); discriminate.
    + simpl in Hother. destruct Hother as [?|[He|[?|[]]]]; try discriminate.
      now injection He.
Qed.

(** ** HexConvert *)

(** Up to 255 a number is written with two hexadecimal digits, none of
    them a colon. *)
Lemma hex02_byte (n : N) :
  (n <= 255)%N ->
  String.length (Hex.hex02 n) = 2 /\ Py.index ":" (Hex.hex02 n) = None.
Proof.
  intros Hn.
  assert (Hall : forallb (fun k => (String.length (Hex.hex02 (N.of_nat k)) =? 2)
                                   && match Py.index ":" (Hex.hex02 (N.of_nat k)) with
                                      | None => true
                                      | Some _ => false
                                      end) (seq 0 256) = true) by (vm_compute; reflexivity).
  rewrite forallb_forall in Hall.
  specialize (Hall (N.to_nat n)). rewrite N2Nat.id in Hall.
  assert (Hin : In (N.to_nat n) (seq 0 256)) by (apply in_seq; lia).
  apply Hall in Hin. apply andb_prop in Hin as [Hlen Hcolon].
  apply Nat.eqb_eq in Hlen. split; [exact Hlen|].
  now destruct (Py.index ":" (Hex.hex02 n)).
Qed.

(** X27: a colour of three levels up to 255 (floats from 0 to 1) is
    written as # and six hexadecimal digits.  The first three parts of the
    text between commas are used and any further part (a white level) is left
    out; the result has seven characters and no colon. *)
Theorem hex_convert_colour level tmp r g b more nr ng nb :
  Led.split "," tmp = r :: g :: b :: more ->
  level r = Some nr -> level g = Some ng -> level b = Some nb ->
  (nr <= 255)%N -> (ng <= 255)%N -> (nb <= 255)%N ->
  Hex.HexConvert level tmp = inr ("#" +:+ Hex.hex02 nr +:+ Hex.hex02 ng +:+ Hex.hex02 nb)
  /\ String.length ("#" +:+ Hex.hex02 nr +:+ Hex.hex02 ng +:+ Hex.hex02 nb) = 7
  /\ Py.index ":" ("#" +:+ Hex.hex02 nr +:+ Hex.hex02 ng +:+ Hex.hex02 nb) = None.
Proof.
  intros Hsplit Hr Hg Hb Hnr Hng Hnb.
  destruct (hex02_byte nr Hnr) as [Lr Cr].
  destruct (hex02_byte ng Hng) as [Lg Cg].
  destruct (hex02_byte nb Hnb) as [Lb Cb].
  repeat split.
  - unfold Hex.HexConvert, Hex.channel. rewrite Hsplit. cbn [nth_error].
    now rewrite Hr, Hg, Hb.
  - rewrite !length_append, Lr, Lg, Lb. reflexivity.
  - apply index_none_append; [reflexivity|].
    apply index_none_append; [exact Cr|].
    now apply index_none_append.
Qed.

Lemma hex_convert_colour_witness :
  Hex.HexConvert (fun s => if String.eqb s "1" then Some 255%N else Some 0%N) "0,0,1,0"
  = inr "#0000ff".
Proof.
  destruct (hex_convert_colour (fun s => if String.eqb s "1" then Some 255%N else Some 0%N)
              "0,0,1,0" "0" "0" "1" ["0"] 0%N 0%N 255%N) as [H _].
  - reflexivity.
  - reflexivity.
  - reflexivity.
  - reflexivity.
  - vm_compute; discriminate.
  - vm_compute; discriminate.
  - vm_compute; discriminate.
  - exact H.
Defined.

(** X28: a colour text with fewer than three parts raises an IndexError
    once the parts that are there have been converted; a part that is not a
    number raises before that. *)
Theorem hex_convert_too_short level tmp :
  length (Led.split "," tmp) < 3 ->
  Forall (fun text => is_Some (level text)) (Led.split "," tmp) ->
  Hex.HexConvert level tmp = inl Hex.IndexError.
Proof.
  intros Hlen Hall. unfold Hex.HexConvert, Hex.channel.
  destruct (Led.split "," tmp) as [|r [|g [|b more]]] eqn:Hsplit; simpl in Hlen; try lia.
  - reflexivity.
  - inversion Hall as [|? ? [nr Hr] _]; subst. cbn [nth_error]. now rewrite Hr.
  - inversion Hall as [|? ? [nr Hr] Hrest]; subst.
    inversion Hrest as [|? ? [ng Hg] _]; subst.
    cbn [nth_error]. now rewrite Hr, Hg.
Qed.

Lemma hex_convert_too_short_witness :
  Hex.HexConvert (fun _ => Some 0%N) "0,0" = inl Hex.IndexError.
Proof.
  apply hex_convert_too_short; [vm_compute; lia|].
  repeat constructor; eauto.
Defined.

(** ** The further facts on the bench *)


Lemma config_rewrite_writes_first_section_file_witness :
  files (Bench.ConfigRewrite Bench.hub_section "afc_bowden_length" "850" ""
           [Yard.notes; ("AFC.cfg", Yard.afc_cfg);
            ("AFC_Hardware.cfg", File Yard.hardware_cfg);
            ("AFC_Turtle_2.cfg", Bench.turtle_cfg "2")])
  = [Yard.notes; ("AFC.cfg", Yard.afc_cfg);
     ("AFC_Hardware.cfg",
      File (dataout (scan_file PlainRe.re_match (section_pattern Bench.hub_section)
                               "afc_bowden_length" "850" false false Yard.hardware_cfg)));
     ("AFC_Turtle_2.cfg", Bench.turtle_cfg "2")].
Proof.
  assert (H : forallb (fun f => negb (scanned f
                                      && has_section PlainRe.re_match Bench.hub_section (snd f)))
                      [Yard.notes; ("AFC.cfg", Yard.afc_cfg)] = true) by reflexivity.
  exact (f_equal files
           (config_rewrite_writes_first_section_file PlainRe.re_match Bench.hub_section
              "afc_bowden_length" "850" ""
              [Yard.notes; ("AFC.cfg", Yard.afc_cfg)] "AFC_Hardware.cfg" Yard.hardware_cfg
              [("AFC_Turtle_2.cfg", Bench.turtle_cfg "2")] H eq_refl eq_refl)).
Defined.

Lemma config_rewrite_nothing_to_rewrite_witness :
  ConfigRewrite_call PlainRe.re_compiles PlainRe.re_match
                     Bench.hub_section "afc_bowden_length" "850" ""
                     [Yard.notes; ("AFC.cfg", Yard.afc_cfg); ("AFC", NotAFile)]
  = Ran (mkRewritten [Yard.notes; ("AFC.cfg", Yard.afc_cfg); ("AFC", NotAFile)]
                     (not_found_msg Bench.hub_section "afc_bowden_length")).
Proof.
  apply (config_rewrite_nothing_to_rewrite PlainRe.re_compiles PlainRe.re_match).
  - reflexivity.
  - left. reflexivity.
Defined.

Lemma config_rewrite_ignores_other_entries_witness :
  Bench.ConfigRewrite Bench.hub_section "afc_bowden_length" "850" ""
                      (("AFC.cfg", Yard.afc_cfg) :: Yard.notes :: Bench.commented_dir)
  = mkRewritten
      [("AFC.cfg", Yard.afc_cfg); Yard.notes;
       ("AFC_Hardware.cfg",
        File (Bench.hub_header +:+ "afc_bowden_length: 850   # measured" +:+ Py.nl))]
      (saved_msg Bench.hub_section "afc_bowden_length" "850").
Proof.
  exact (config_rewrite_ignores_other_entries PlainRe.re_match Bench.hub_section
           "afc_bowden_length" "850" "" [("AFC.cfg", Yard.afc_cfg)] Yard.notes
           Bench.commented_dir eq_refl).
Defined.

Lemma set_bowden_length_raise_changes_nothing_witness :
  Bench.SET_BOWDEN_LENGTH (Bench.params [("HUB", "hub1"); ("LENGTH", "long")]) Bench.st0
  = Raise (ValueError "long") Bench.st0 []
  /\ Bench.st0 = Bench.st0 /\ @nil (Event Z) = [].
Proof.
  split; [reflexivity|].
  apply (set_bowden_length_raise_changes_nothing Bench.float Z.add Bench.str Bench.reg
           (Bench.params [("HUB", "hub1"); ("LENGTH", "long")]) Bench.st0 (ValueError "long")).
  reflexivity.
Defined.

Lemma set_bowden_length_keeps_configuration_witness :
  match Bench.SET_BOWDEN_LENGTH (Bench.params [("HUB", "hub1"); ("LENGTH", "+10")]) Bench.st0 with
  | Return st' _ => config_bowden_length <$> (hubs st' !! "hub1") = Some 200%Z
  | Raise _ _ _ => False
  end.
Proof.
  destruct (Bench.SET_BOWDEN_LENGTH (Bench.params [("HUB", "hub1"); ("LENGTH", "+10")]) Bench.st0)
    as [st' tr|e st' tr] eqn:Hrun; [|discriminate].
  destruct (set_bowden_length_keeps_configuration Bench.float Z.add Bench.str Bench.reg
              (Bench.params [("HUB", "hub1"); ("LENGTH", "+10")]) Bench.st0 st' tr
              (or_introl Hrun)) as (Hconfig & _).
  rewrite Hconfig. reflexivity.
Defined.

Lemma set_bowden_length_accumulates_witness :
  exists st1 tr1 st2 tr2,
    Bench.SET_BOWDEN_LENGTH (Bench.params [("HUB", "hub1"); ("LENGTH", "+10")]) Bench.st0
    = Return st1 tr1
    /\ Bench.SET_BOWDEN_LENGTH (Bench.params [("HUB", "hub1"); ("LENGTH", "-3")]) st1
       = Return st2 tr2
    /\ hubs st2 !! "hub1" = Some (mkHub "hub1" 200%Z 212%Z).
Proof.
  apply (set_bowden_length_accumulates Bench.float Z.add Bench.str (Hardware := nat) Bench.reg
           (Bench.params [("HUB", "hub1"); ("LENGTH", "+10")])
           (Bench.params [("HUB", "hub1"); ("LENGTH", "-3")])
           Bench.st0 "hub1" (mkHub "hub1" 200%Z 205%Z) "+10" "-3" 10%Z (-3)%Z);
    try reflexivity; vm_compute; discriminate.
Defined.

Lemma set_bowden_length_reset_undoes_witness :
  exists st2 tr2,
    Bench.SET_BOWDEN_LENGTH (Bench.params [("HUB", "hub1")])
      (set_afc_bowden_length "hub1" (mkHub "hub1" 200%Z 205%Z) 150%Z Bench.st0)
    = Return st2 tr2
    /\ hubs st2 !! "hub1" = Some (mkHub "hub1" 200%Z 200%Z).
Proof.
  apply (set_bowden_length_reset_undoes Bench.float Z.add Bench.str (Hardware := nat) Bench.reg
           (Bench.params [("HUB", "hub1"); ("LENGTH", "150")])
           (Bench.params [("HUB", "hub1")])
           Bench.st0 "hub1" (mkHub "hub1" 200%Z 205%Z)
           (set_afc_bowden_length "hub1" (mkHub "hub1" 200%Z 205%Z) 150%Z Bench.st0)
           [Raw (bowden_msg Z Bench.str "hub1" (mkHub "hub1" 200%Z 205%Z) 205%Z 150%Z)]);
    reflexivity.
Defined.

Lemma calibrate_afc_rejects_unknown_names_witness :
  exists msg,
    Bench.CALIBRATE_AFC (Bench.params [("LANE", "lane9")]) Bench.st0
    = Return Bench.st0 [AFC_error msg].
Proof.
  apply (calibrate_afc_rejects_unknown_names id Bench.float Bench.str
           Bench.calibrate_lane Bench.calibrate_bowden
           Bench.reg (Bench.params [("LANE", "lane9")]) Bench.st0 25%Z 5%Z);
    try reflexivity.
  left. reflexivity.
Defined.

Lemma calibrate_afc_refused_while_loaded_witness :
  Bench.CALIBRATE_AFC (Bench.params [("LANE", "all"); ("BOWDEN", "lane1")]) Yard.loaded
  = Return Yard.loaded [Info "Tool must be unloaded to calibrate Bowden length"].
Proof.
  apply (calibrate_afc_refused_while_loaded id Bench.float Bench.str
           Bench.calibrate_lane Bench.calibrate_bowden
           Bench.reg (Bench.params [("LANE", "all"); ("BOWDEN", "lane1")]) Yard.loaded
           25%Z 5%Z "lane1" "lane1");
    reflexivity.
Defined.

Lemma batch_all_pass_witness :
  cmd_CALIBRATE_AFC Z id Bench.float Bench.str nat Yard.calibrate_lane_ok
                    Bench.calibrate_bowden Bench.reg
                    (Bench.params [("LANE", "all"); ("UNIT", "Turtle_1")]) Bench.st0
  = Return (Bench.tick (Bench.tick (Bench.tick (Bench.tick Bench.st0))))
      [Info "Starting AFC distance Calibrations"; Info "Turtle_1";
       Calibrate_lane "Turtle_1" Bench.lane1 5%Z;
       Calibrate_lane "Turtle_1" Bench.lane2 5%Z;
       Calibrate_lane "Turtle_1" Bench.lane3 5%Z;
       Calibrate_lane "Turtle_1" Bench.lane4 5%Z;
       Info "Lane calibration Done!"].
Proof.
  apply (batch_all_pass id Bench.float Bench.str Yard.calibrate_lane_ok Bench.calibrate_bowden
           Bench.reg (Bench.params [("LANE", "all"); ("UNIT", "Turtle_1")]) Bench.st0
           25%Z 5%Z [Info "Turtle_1"] (fun _ => "Turtle_1")
           [Bench.lane1; Bench.lane2; Bench.lane3; Bench.lane4]
           (Bench.tick (Bench.tick (Bench.tick (Bench.tick Bench.st0))))
           [Py.nl +:+ "lane1 dist_hub calibrated"; Py.nl +:+ "lane2 dist_hub calibrated";
            Py.nl +:+ "lane3 dist_hub calibrated"; Py.nl +:+ "lane4 dist_hub calibrated"]);
    reflexivity.
Defined.

Lemma single_lane_ignores_unit_witness :
  Bench.CALIBRATE_AFC (Bench.params [("LANE", "lane2"); ("UNIT", "Turtle_1")]) Bench.st0
  = Bench.CALIBRATE_AFC (Bench.params [("LANE", "lane2")]) Bench.st0.
Proof.
  unfold Bench.CALIBRATE_AFC.
  rewrite (single_lane_ignores_unit id Bench.float Bench.str
             Bench.calibrate_lane Bench.calibrate_bowden Bench.reg
             (Bench.params [("LANE", "lane2"); ("UNIT", "Turtle_1")]) Bench.st0
             25%Z 5%Z "lane2" "Turtle_1");
    reflexivity.
Defined.

Lemma bowden_pass_raises_keeps_buffer_witness :
  match cmd_CALIBRATE_AFC Z id Bench.float Bench.str nat Bench.calibrate_lane
                          Yard.calibrate_bowden_raises Bench.reg
                          (Bench.params [("BOWDEN", "lane1")]) Bench.st0 with
  | Raise _ st' _ => tool_start (extruders st' "extruder") = Some "buffer"
  | Return _ _ => False
  end.
Proof.
  destruct (bowden_pass_raises_keeps_buffer id Bench.float Bench.str
              Bench.calibrate_lane Yard.calibrate_bowden_raises
              Bench.reg (Bench.params [("BOWDEN", "lane1")]) Bench.st0 25%Z 5%Z
              "lane1" Bench.lane1 EmptyString Bench.st0
              [Info "No lanes selected to calibrate dist_hub"] "PG13" "TN"
              (set_tool_start "extruder" (Some "buffer") Bench.st0) "Timer too close")
    as [Hrun Hkept].
  - reflexivity.
  - reflexivity.
  - reflexivity.
  - reflexivity.
  - reflexivity.
  - reflexivity.
  - reflexivity.
  - reflexivity.
  - reflexivity.
  - reflexivity.
  - reflexivity.
  - rewrite Hrun. apply Hkept. reflexivity.
Defined.

Lemma bowden_refused_unless_substitution_witness :
  Bench.CALIBRATE_AFC (Bench.params [("BOWDEN", "lane3")]) Bench.st0
  = Return Bench.st0
      [Info "No lanes selected to calibrate dist_hub";
       AFC_error "Cannot calibrate with only post extruder sensor and no turtleneck buffer defined in config"].
Proof.
  apply (bowden_refused_unless_substitution id Bench.float Bench.str
           Bench.calibrate_lane Bench.calibrate_bowden
           Bench.reg (Bench.params [("BOWDEN", "lane3")]) Bench.st0 25%Z 5%Z
           "lane3" Bench.lane3 EmptyString Bench.st0
           [Info "No lanes selected to calibrate dist_hub"]);
    reflexivity.
Defined.

Lemma tcmd_assign_first_free_witness :
  Tcmd.map (Tcmd.TcmdAssign (fun _ => true) Yard.two_taken "lane3" "NONE") = "T2".
Proof.
  destruct (tcmd_assign_first_free (fun _ => true) Yard.two_taken "lane3")
    as (x & Hx & Hmap & Hfree & Hbelow & _); [reflexivity|].
  rewrite Hmap.
  destruct x as [|[|[|x]]].
  - vm_compute in Hfree. discriminate.
  - vm_compute in Hfree. discriminate.
  - reflexivity.
  - destruct (Hbelow 2) as [owner Howner]; [lia|]. vm_compute in Howner. discriminate.
Defined.

Lemma tcmd_assign_exhausted_witness :
  Tcmd.map (Tcmd.TcmdAssign (fun _ => true) Yard.all_taken "lane3" "NONE") = "NONE".
Proof.
  destruct (tcmd_assign_exhausted (fun _ => true) Yard.all_taken "lane3") as [H _].
  - vm_compute. reflexivity.
  - exact H.
Defined.

Lemma tcmd_assign_distinct_witness :
  Tcmd.map (Tcmd.TcmdAssign (fun _ => true)
              (Tcmd.tool_cmds (Tcmd.TcmdAssign (fun _ => true) Yard.two_taken "lane3" "NONE"))
              "lane4" "NONE")
  <> Tcmd.map (Tcmd.TcmdAssign (fun _ => true) Yard.two_taken "lane3" "NONE").
Proof.
  apply tcmd_assign_distinct. reflexivity.
Defined.

Lemma delta_time_marks_after_start_witness :
  exists lines,
    DeltaTime.calls [DeltaTime.Set_start_time 100;
                     DeltaTime.Log_with_time "load" true 105;
                     DeltaTime.Log_major_delta "phase" true 107;
                     DeltaTime.Log_with_time "move" false 103;
                     DeltaTime.Log_total_time "done" 120] DeltaTime.init
    = DeltaTime.Ok (DeltaTime.mk (Some 100%Z) (Some 103%Z) (Some 107%Z)) lines
    /\ length lines = 4.
Proof.
  apply (delta_time_marks_after_start DeltaTime.init 100%Z
           [DeltaTime.Log_with_time "load" true 105;
            DeltaTime.Log_major_delta "phase" true 107;
            DeltaTime.Log_with_time "move" false 103;
            DeltaTime.Log_total_time "done" 120]).
  reflexivity.
Defined.

Lemma activate_nothing_loaded_witness :
  List.filter Activate.not_led
              (fst (Activate.handle_activate_extruder Yard.objects Yard.int Yard.starting))
  = [Activate.Do_enable "lane1" false; Activate.Disable_buffer "lane1";
     Activate.Do_enable "lane2" false; Activate.Disable_buffer "lane2";
     Activate.Do_enable "lane3" false; Activate.Disable_buffer "lane3";
     Activate.Set_active_spool ""].
Proof.
  rewrite (activate_nothing_loaded Yard.objects Yard.int Yard.starting
             (fst (Activate.handle_activate_extruder Yard.objects Yard.int Yard.starting)));
    reflexivity.
Defined.

Lemma activate_loaded_lane_witness :
  In (Activate.Do_enable "lane2" true)
     (fst (Activate.handle_activate_extruder Yard.objects Yard.int Yard.ready))
  /\ ~ In (Activate.Do_enable "lane2" false)
          (fst (Activate.handle_activate_extruder Yard.objects Yard.int Yard.ready)).
Proof.
  destruct (activate_loaded_lane Yard.objects Yard.int Yard.ready
              (fst (Activate.handle_activate_extruder Yard.objects Yard.int Yard.ready))
              "lane2" (Yard.led_lane "lane2" "AFC_Indicator:2"))
    as (Hon & Hoff & _).
  - reflexivity.
  - reflexivity.
  - reflexivity.
  - reflexivity.
  - split; [exact Hon | exact Hoff].
Defined.
